(** * MCP registry example scripts: a shallow embedding

    Two Python scripts are embedded here:

    - [scripts/consume_from_registry.py]: the [MCPRegistryClient] class and
      the five discovery examples driven by its [main];
    - [scripts/publish_server_rest.py]: validation, token acquisition,
      publish/update and verification, driven by its [main].

    Both scripts are sequences of HTTP calls and [print]s.  A run is a
    function from a world (the chronological trace of events so far) to a
    result and a new world.  The registry, the schema host, the descriptor
    file, the process environment and the JSON-schema engine are inputs of
    the run. *)

From Stdlib Require Import ZArith List String Ascii Bool Lia.
Import ListNotations.

Local Open Scope list_scope.
Local Open Scope Z_scope.

Infix "+++" := String.append (right associativity, at level 60).

Local Set Warnings "-register-all".

(** ** Python values and library functions *)

Module Py.

(** Strings are held as their UTF-8 bytes, one [ascii] per byte. *)

(** [str.rstrip('/')]. *)
Fixpoint rstrip_slash (s : string) : string :=
  match s with
  | EmptyString => EmptyString
  | String c tl =>
      match rstrip_slash tl with
      | EmptyString => if Ascii.eqb c "/" then EmptyString else String c EmptyString
      | tl' => String c tl'
      end
  end.

(** [str.lower()] on the ASCII range; bytes of other code points are kept. *)
Definition lower_ascii (c : ascii) : ascii :=
  let n := N_of_ascii c in
  if ((65 <=? n) && (n <=? 90))%N then ascii_of_N (n + 32) else c.

Fixpoint lower (s : string) : string :=
  match s with
  | EmptyString => EmptyString
  | String c tl => String (lower_ascii c) (lower tl)
  end.

(** A byte that continues a UTF-8 sequence: [10xxxxxx]. *)
Definition is_continuation (c : ascii) : bool :=
  let n := N_of_ascii c in ((128 <=? n) && (n <? 192))%N.

(** The code points of a string, each as a one-character string: what
    iterating over a [str] yields. *)
Definition starts_with_continuation (s : string) : bool :=
  match s with
  | String d _ => is_continuation d
  | EmptyString => false
  end.

Fixpoint chars (s : string) : list string :=
  match s with
  | EmptyString => []
  | String c tl =>
      match chars tl with
      | hd :: rest =>
          if starts_with_continuation tl then String c hd :: rest
          else String c EmptyString :: hd :: rest
      | [] => [String c EmptyString]
      end
  end.

(** [str.split(sep)] for a one-character separator. *)
Fixpoint split_on (sep : ascii) (s : string) : list string :=
  match s with
  | EmptyString => [EmptyString]
  | String c tl =>
      if Ascii.eqb c sep then EmptyString :: split_on sep tl
      else match split_on sep tl with
           | hd :: rest => String c hd :: rest
           | [] => [String c EmptyString]
           end
  end.

(** [str.count(c)] for a one-character argument. *)
Fixpoint count_char (c : ascii) (s : string) : nat :=
  match s with
  | EmptyString => O
  | String d tl => (if Ascii.eqb d c then 1 else 0) + count_char c tl
  end%nat.

(** *** [urllib.parse.quote(s, safe='')]

    The string is encoded to UTF-8 and every byte outside the always-safe
    set (ASCII letters, digits and [_.-~]) becomes [%XX] with upper-case
    hexadecimal digits. *)

Definition always_safe (c : ascii) : bool :=
  let n := N_of_ascii c in
  ((65 <=? n) && (n <=? 90)          (* A-Z *)
   || (97 <=? n) && (n <=? 122)      (* a-z *)
   || (48 <=? n) && (n <=? 57)       (* 0-9 *)
   || (n =? 95) || (n =? 46) || (n =? 45) || (n =? 126))%N.  (* _ . - ~ *)

Definition hex_digit (n : N) : ascii :=
  if (n <? 10)%N then ascii_of_N (48 + n) else ascii_of_N (55 + n).

Definition quote_byte (c : ascii) : string :=
  if always_safe c then String c EmptyString
  else
    let n := N_of_ascii c in
    String "%" (String (hex_digit (n / 16)) (String (hex_digit (n mod 16)) EmptyString)).

Fixpoint quote (s : string) : string :=
  match s with
  | EmptyString => EmptyString
  | String c tl => quote_byte c +++ quote tl
  end.

(** *** Percent-decoding

    The decoder is the registry's, not this repository's; this is the
    standard one ([urllib.parse.unquote_to_bytes]): [%XY] with two
    hexadecimal digits of either case is one byte, anything else is kept. *)

Definition hex_value (c : ascii) : option N :=
  let n := N_of_ascii c in
  if ((48 <=? n) && (n <=? 57))%N then Some (n - 48)%N
  else if ((65 <=? n) && (n <=? 70))%N then Some (n - 55)%N
  else if ((97 <=? n) && (n <=? 102))%N then Some (n - 87)%N
  else None.

Fixpoint unquote (s : string) : string :=
  match s with
  | EmptyString => EmptyString
  | String c tl =>
      if Ascii.eqb c "%" then
        match tl with
        | String h (String l rest) =>
            match hex_value h, hex_value l with
            | Some a, Some b => String (ascii_of_N (16 * a + b)) (unquote rest)
            | _, _ => String c (unquote tl)
            end
        | _ => String c (unquote tl)
        end
      else String c (unquote tl)
  end.

(** *** JSON values, as [json.load] and [response.json()] deliver them

    A [dict] keeps its items in insertion order with distinct keys; numbers
    are limited to integers. [JNull] is [None]. *)

Inductive json : Type :=
| JNull
| JBool (b : bool)
| JNum (n : Z)
| JStr (s : string)
| JArr (items : list json)
| JObj (items : list (string * json)).

Fixpoint assoc {A : Type} (k : string) (l : list (string * A)) : option A :=
  match l with
  | [] => None
  | (k', v) :: tl => if String.eqb k' k then Some v else assoc k tl
  end.

(** [d[k] = v] on a dict: replaces in place, or appends. *)
Fixpoint assoc_set {A : Type} (k : string) (v : A) (l : list (string * A))
  : list (string * A) :=
  match l with
  | [] => [(k, v)]
  | (k', v') :: tl =>
      if String.eqb k' k then (k, v) :: tl else (k', v') :: assoc_set k v tl
  end.

(** Truth value of an object, as [if x:] and [not x] test it. *)
Definition truthy (v : json) : bool :=
  match v with
  | JNull => false
  | JBool b => b
  | JNum n => negb (n =? 0)
  | JStr s => negb (String.eqb s EmptyString)
  | JArr l => match l with [] => false | _ => true end
  | JObj l => match l with [] => false | _ => true end
  end.

(** Exceptions that the scripts can meet. [KeyboardInterrupt] is the only
    one outside the [Exception] hierarchy. *)
Inductive exn : Type :=
| HTTPError (status : Z)        (* raised by [Response.raise_for_status] *)
| TransportError (what : string)(* ConnectionError, Timeout, ... of requests *)
| JSONDecodeError
| ValidationError
| SchemaError
| ImportError
| OSError
| KeyError (key : string)
| IndexError
| AttributeError
| TypeError
| KeyboardInterrupt.

Definition is_Exception (e : exn) : bool :=
  match e with
  | KeyboardInterrupt => false
  | _ => true
  end.

End Py.
Export Py.

(** ** The run-time: events, the network, and the monad of runs *)

Module Run.

Inductive Method : Type := GET | POST | PUT.

Definition Method_eqb (a b : Method) : bool :=
  match a, b with
  | GET, GET | POST, POST | PUT, PUT => true
  | _, _ => false
  end.

(** A printed line (or a header value) is kept as the pieces of its
    f-string: literal text and the values interpolated into it. *)
Inductive Frag : Type :=
| Lit (s : string)                 (* literal text, or a [str] variable *)
| Val (v : json)                   (* [{v}] *)
| Prefix (n : Z) (v : json)        (* [{v[:n]}] *)
| Dump (v : json)                  (* [json.dumps(v, indent=2)] *)
| DumpPrefix (n : Z) (v : json)    (* [json.dumps(v, indent=2)[:n]] *)
| Err (e : exn).                   (* [{e}] for a caught exception *)

Definition Line : Type := list Frag.

Record Request : Type := mkRequest {
  meth : Method;
  url : string;
  params : list (string * json);       (* [params=] *)
  headers : list (string * Line);      (* [headers=] *)
  body : option json;                  (* [json=] *)
  timeout : option Z                   (* [timeout=] *)
}.

Record Response : Type := mkResponse {
  status_code : Z;
  json_body : option json              (* [None]: the body is not JSON *)
}.

(** What a call into [requests] comes back with. *)
Inductive Outcome : Type :=
| Responded (r : Response)
| Failed (e : exn).

Inductive Event : Type :=
| Sent (r : Request)
| Print (l : Line)
| Sleep (secs : Z)
| Traceback (e : exn).

(** The trace of a run, oldest event first. *)
Definition World : Type := list Event.

Fixpoint requests_of (w : World) : list Request :=
  match w with
  | [] => []
  | Sent r :: tl => r :: requests_of tl
  | _ :: tl => requests_of tl
  end.

Fixpoint prints_of (w : World) : list Line :=
  match w with
  | [] => []
  | Print l :: tl => l :: prints_of tl
  | _ :: tl => prints_of tl
  end.

(** Everything on the other side of the wire: the answer to a request,
    given the requests issued before it. *)
Definition Net : Type := list Request -> Request -> Outcome.

Inductive Result (A : Type) : Type :=
| Ok (a : A)
| Raise (e : exn)
| Diverge.                             (* a loop that ran out of fuel *)

Arguments Ok {A} a.
Arguments Raise {A} e.
Arguments Diverge {A}.

Definition M (A : Type) : Type := World -> Result A * World.

Definition ret {A : Type} (a : A) : M A := fun w => (Ok a, w).

Definition bind {A B : Type} (c : M A) (k : A -> M B) : M B :=
  fun w =>
    match c w with
    | (Ok a, w') => k a w'
    | (Raise e, w') => (Raise e, w')
    | (Diverge, w') => (Diverge, w')
    end.

Definition raise {A : Type} (e : exn) : M A := fun w => (Raise e, w).

Definition emit (ev : Event) : M unit := fun w => (Ok tt, w ++ [ev]).

Definition print (l : Line) : M unit := emit (Print l).

(** [try: body  except <class> as e: handler e]. *)
Definition try_except {A : Type} (body : M A) (class : exn -> bool)
  (handler : exn -> M A) : M A :=
  fun w =>
    match body w with
    | (Raise e, w') => if class e then handler e w' else (Raise e, w')
    | r => r
    end.

Declare Scope run_scope.
Delimit Scope run_scope with run.
Notation "x <- c ;; k" := (bind c (fun x => k))
  (at level 100, c at next level, right associativity) : run_scope.
Notation "c ;; k" := (bind c (fun _ => k))
  (at level 100, right associativity) : run_scope.
Local Open Scope run_scope.

Fixpoint for_each {A : Type} (l : list A) (body : A -> M unit) : M unit :=
  match l with
  | [] => ret tt
  | x :: tl => body x ;; for_each tl body
  end.

(** Statements run one after the other. *)
Fixpoint sequence (cs : list (M unit)) : M unit :=
  match cs with
  | [] => ret tt
  | c :: tl => c ;; sequence tl
  end.

(** [when c: body] *)
Definition when (c : bool) (body : M unit) : M unit :=
  if c then body else ret tt.

(** *** [requests] *)

Section Requests.
Variable net : Net.

Definition send (req : Request) : M Response :=
  fun w =>
    match net (requests_of w) req with
    | Responded r => (Ok r, w ++ [Sent req])
    | Failed e => (Raise e, w ++ [Sent req])
    end.
End Requests.

(** [Response.raise_for_status()]: raises for 4xx and 5xx only. *)
Definition raise_for_status (r : Response) : M unit :=
  if (400 <=? status_code r) && (status_code r <? 600)
  then raise (HTTPError (status_code r))
  else ret tt.

(** [Response.json()] *)
Definition response_json (r : Response) : M json :=
  match json_body r with
  | Some v => ret v
  | None => raise JSONDecodeError
  end.

(** *** Operations on decoded JSON *)

(** [v.get(k, default)]: only a [dict] has [get]. *)
Definition dict_get (v : json) (k : string) (default : json) : M json :=
  match v with
  | JObj items =>
      ret (match assoc k items with Some x => x | None => default end)
  | _ => raise AttributeError
  end.

(** What [for x in v] and [list.extend(v)] walk over. *)
Definition iterate (v : json) : M (list json) :=
  match v with
  | JArr items => ret items
  | JStr s => ret (map JStr (chars s))
  | JObj items => ret (map (fun kv => JStr (fst kv)) items)
  | _ => raise TypeError
  end.

(** [len(v)] *)
Definition len (v : json) : M Z :=
  match v with
  | JArr items => ret (Z.of_nat (List.length items))
  | JStr s => ret (Z.of_nat (List.length (chars s)))
  | JObj items => ret (Z.of_nat (List.length items))
  | _ => raise TypeError
  end.

(** [v[0]] *)
Definition first_item (v : json) : M json :=
  match v with
  | JArr (x :: _) => ret x
  | JArr [] => raise IndexError
  | JStr s =>
      match chars s with
      | c :: _ => ret (JStr c)
      | [] => raise IndexError
      end
  | JObj _ => raise (KeyError "0")
  | _ => raise TypeError
  end.

(** [v == s] for a string literal [s]. *)
Definition equals_str (v : json) (s : string) : bool :=
  match v with
  | JStr t => String.eqb t s
  | _ => false
  end.

Fixpoint repeat_string (s : string) (n : nat) : string :=
  match n with
  | O => EmptyString
  | S n' => s +++ repeat_string s n'
  end.

Definition nl : string := String (ascii_of_nat 10) EmptyString.

(** A double quote. *)
Definition dq : string := String (ascii_of_nat 34) EmptyString.

(** [v[:n]] is defined on [str] and [list] only. *)
Definition sliceable (v : json) : M unit :=
  match v with
  | JStr _ | JArr _ => ret tt
  | _ => raise TypeError
  end.

(** [v[k]] for a string key. *)
Definition subscript (v : json) (k : string) : M json :=
  match v with
  | JObj items =>
      match assoc k items with
      | Some x => ret x
      | None => raise (KeyError k)
      end
  | _ => raise TypeError
  end.

(** ['='*70] *)
Definition rule : string := repeat_string "=" 70.

End Run.
Export Run.

(** ** [scripts/consume_from_registry.py] *)

Module Consume.
Local Open Scope run_scope.

(** [class MCPRegistryClient] *)
Record MCPRegistryClient : Type := mkClient {
  registry_url : string;
  api_base : string
}.

(** [MCPRegistryClient.__init__] *)
Definition new_client (url : string) : MCPRegistryClient :=
  let registry_url := rstrip_slash url in
  {| registry_url := registry_url; api_base := registry_url +++ "/v0.1" |}.

(** The [params] dict built by [list_servers]. [search] and [cursor] are
    [JNull] for [None]. *)
Definition list_servers_params (search : json) (version : string) (limit : Z)
  (cursor : json) : list (string * json) :=
  let params := [("limit"%string, JNum limit); ("version"%string, JStr version)] in
  let params := if truthy search then assoc_set "search" search params else params in
  let params := if truthy cursor then assoc_set "cursor" cursor params else params in
  params.

Definition list_servers_request (self : MCPRegistryClient) (search : json)
  (version : string) (limit : Z) (cursor : json) : Request :=
  mkRequest GET (api_base self +++ "/servers")
            (list_servers_params search version limit cursor) [] None None.

Definition get_server_version_url (self : MCPRegistryClient)
  (server_name version : string) : string :=
  let encoded_name := quote server_name in
  let encoded_version := quote version in
  api_base self +++ "/servers/" +++ encoded_name +++ "/versions/" +++ encoded_version.

Definition get_server_version_request (self : MCPRegistryClient)
  (server_name version : string) : Request :=
  mkRequest GET (get_server_version_url self server_name version) [] [] None None.

Definition list_server_versions_request (self : MCPRegistryClient)
  (server_name : string) : Request :=
  let encoded_name := quote server_name in
  mkRequest GET (api_base self +++ "/servers/" +++ encoded_name +++ "/versions")
            [] [] None None.

Definition official : string := "io.modelcontextprotocol.registry/official".

Definition banner (title : Line) : M unit :=
  print [Lit nl; Lit rule] ;;
  print title ;;
  print [Lit rule].

(** The [for pkg in packages] body of [print_server_info]. *)
Definition print_package (pkg : json) : M unit :=
  type <- dict_get pkg "type" (JStr "N/A") ;;
  print [Lit "   Type:     "; Val type] ;;
  name <- dict_get pkg "name" (JStr "N/A") ;;
  print [Lit "   Name:     "; Val name] ;;
  install_cmd <- dict_get pkg "installCommand" JNull ;;
  when (truthy install_cmd) (print [Lit "   Install:  "; Val install_cmd]) ;;
  run_cmd <- dict_get pkg "runCommand" JNull ;;
  when (truthy run_cmd) (print [Lit "   Run:      "; Val run_cmd]) ;;
  print [].

Definition print_server_info (server_data : json) (detailed : bool) : M unit :=
  server <- dict_get server_data "server" (JObj []) ;;
  meta0 <- dict_get server_data "_meta" (JObj []) ;;
  meta <- dict_get meta0 official (JObj []) ;;
  print [Lit nl; Lit rule] ;;
  title <- dict_get server "title" (JStr "N/A") ;;
  print [Lit "📦 "; Val title] ;;
  print [Lit rule] ;;
  name <- dict_get server "name" (JStr "N/A") ;;
  print [Lit "Name:        "; Val name] ;;
  version <- dict_get server "version" (JStr "N/A") ;;
  print [Lit "Version:     "; Val version] ;;
  description <- dict_get server "description" (JStr "N/A") ;;
  print [Lit "Description: "; Val description] ;;
  repo <- dict_get server "repository" JNull ;;
  when (truthy repo)
    (u <- dict_get repo "url" (JStr "N/A") ;;
     print [Lit "Repository:  "; Val u]) ;;
  when (truthy meta)
    (status <- dict_get meta "status" (JStr "N/A") ;;
     print [Lit nl; Lit "Status:      "; Val status] ;;
     published <- dict_get meta "publishedAt" (JStr "N/A") ;;
     print [Lit "Published:   "; Val published] ;;
     is_latest <- dict_get meta "isLatest" JNull ;;
     when (truthy is_latest) (print [Lit "Latest:      ✓ This is the latest version"])) ;;
  if detailed then
    packages <- dict_get server "packages" JNull ;;
    when (truthy packages)
      (print [Lit nl; Lit "📦 Installation Packages:"] ;;
       pkgs <- iterate packages ;;
       for_each pkgs print_package)
  else ret tt.

(** The [for version_data in versions] body of [example_3_list_versions]. *)
Definition print_version (version_data : json) : M unit :=
  version_info <- dict_get version_data "version" (JObj []) ;;
  meta0 <- dict_get version_data "_meta" (JObj []) ;;
  meta <- dict_get meta0 official (JObj []) ;;
  version_str <- dict_get version_info "version" (JStr "unknown") ;;
  published <- dict_get meta "publishedAt" (JStr "N/A") ;;
  is_latest <- dict_get meta "isLatest" JNull ;;
  let latest := if truthy is_latest then " (LATEST)"%string else EmptyString in
  print [Lit "  • v"; Val version_str; Lit latest; Lit " - published "; Val published].

(** The [for pkg in packages] body of [example_5_installation_info]. *)
Definition print_install (pkg : json) : M unit :=
  pkg_type <- dict_get pkg "type" JNull ;;
  pkg_name <- dict_get pkg "name" JNull ;;
  (if equals_str pkg_type "npm" then print [Lit "  npm install -g "; Val pkg_name]
   else if equals_str pkg_type "pypi" then print [Lit "  pip install "; Val pkg_name]
   else if equals_str pkg_type "docker" then print [Lit "  docker pull "; Val pkg_name]
   else ret tt) ;;
  run_cmd <- dict_get pkg "runCommand" JNull ;;
  when (truthy run_cmd) (print [Lit "  "; Val run_cmd]).

(** [name.split('/')[-1]]; only a [str] has [split]. *)
Definition short_name (name : json) : M string :=
  match name with
  | JStr s => ret (last (split_on "/" s) EmptyString)
  | _ => raise AttributeError
  end.

Definition is_HTTPError (e : exn) : bool :=
  match e with
  | HTTPError _ => true
  | _ => false
  end.

(** [except requests.exceptions.HTTPError as e:] with the 404 test that
    examples 2, 3 and 5 share. *)
Definition not_found_or_reraise (message : Line) (e : exn) : M unit :=
  match e with
  | HTTPError status =>
      if status =? 404 then print message else raise e
  | _ => raise e
  end.

Section Client.
Variable net : Net.

Definition list_servers (self : MCPRegistryClient) (search : json)
  (version : string) (limit : Z) (cursor : json) : M json :=
  response <- send net (list_servers_request self search version limit cursor) ;;
  raise_for_status response ;;
  response_json response.

Definition get_server_version (self : MCPRegistryClient)
  (server_name version : string) : M json :=
  response <- send net (get_server_version_request self server_name version) ;;
  raise_for_status response ;;
  response_json response.

Definition get_server (self : MCPRegistryClient) (server_name : string) : M json :=
  get_server_version self server_name "latest".

Definition list_server_versions (self : MCPRegistryClient)
  (server_name : string) : M json :=
  response <- send net (list_server_versions_request self server_name) ;;
  raise_for_status response ;;
  response_json response.

Definition example_1_search_servers (client : MCPRegistryClient) : M unit :=
  banner [Lit "EXAMPLE 1: Search for Math Servers"] ;;
  result <- list_servers client (JStr "math") "latest" 10 JNull ;;
  servers <- dict_get result "servers" (JArr []) ;;
  n <- len servers ;;
  print [Lit nl; Lit "Found "; Val (JNum n); Lit " server(s) matching 'math':"] ;;
  items <- iterate servers ;;
  for_each items (fun server_data =>
    server <- dict_get server_data "server" (JObj []) ;;
    name <- dict_get server "name" JNull ;;
    version <- dict_get server "version" JNull ;;
    title <- dict_get server "title" JNull ;;
    print [Lit "  • "; Val name; Lit " v"; Val version; Lit " - "; Val title]).

Definition example_2_not_found (server_name : string) : Line :=
  [Lit nl; Lit "❌ Server '"; Lit server_name; Lit "' not found in registry"].

Definition example_2_get_specific_server (client : MCPRegistryClient)
  (server_name : string) : M unit :=
  banner [Lit "EXAMPLE 2: Get Server Details"] ;;
  try_except
    (server_data <- get_server client server_name ;;
     print_server_info server_data true)
    is_HTTPError
    (not_found_or_reraise (example_2_not_found server_name)).

Definition not_found (server_name : string) : Line :=
  [Lit nl; Lit "❌ Server '"; Lit server_name; Lit "' not found"].

Definition example_3_list_versions (client : MCPRegistryClient)
  (server_name : string) : M unit :=
  banner [Lit "EXAMPLE 3: List All Versions"] ;;
  try_except
    (result <- list_server_versions client server_name ;;
     versions <- dict_get result "versions" (JArr []) ;;
     print [Lit nl; Lit "Available versions of "; Lit server_name; Lit ":"] ;;
     items <- iterate versions ;;
     for_each items print_version)
    is_HTTPError
    (not_found_or_reraise (not_found server_name)).

(** The [while True:] loop of [example_4_list_all_servers]; it returns
    [all_servers]. One unit of fuel is one turn of the loop. *)
Fixpoint example_4_loop (fuel : nat) (client : MCPRegistryClient)
  (all_servers : list json) (cursor : json) (page : Z) : M (list json) :=
  match fuel with
  | O => fun w => (Diverge, w)
  | S fuel' =>
      result <- list_servers client JNull "latest" 10 cursor ;;
      servers <- dict_get result "servers" (JArr []) ;;
      items <- iterate servers ;;
      let all_servers := all_servers ++ items in
      n <- len servers ;;
      print [Lit nl; Lit "Page "; Val (JNum page); Lit ": Found "; Val (JNum n);
             Lit " servers"] ;;
      cursor <- dict_get result "nextCursor" JNull ;;
      if negb (truthy cursor) then ret all_servers
      else example_4_loop fuel' client all_servers cursor (page + 1)
  end.

Definition example_4_list_all_servers (fuel : nat) (client : MCPRegistryClient)
  : M unit :=
  banner [Lit "EXAMPLE 4: List All Servers (with pagination)"] ;;
  all_servers <- example_4_loop fuel client [] JNull 1 ;;
  print [Lit nl; Lit "✓ Total servers in registry: ";
         Val (JNum (Z.of_nat (List.length all_servers)))] ;;
  print [Lit nl; Lit "Servers:"] ;;
  for_each all_servers (fun server_data =>
    server <- dict_get server_data "server" (JObj []) ;;
    name <- dict_get server "name" JNull ;;
    version <- dict_get server "version" JNull ;;
    print [Lit "  • "; Val name; Lit " v"; Val version]).

Definition example_5_installation_info (client : MCPRegistryClient)
  (server_name : string) : M unit :=
  banner [Lit "EXAMPLE 5: How to Use This Server"] ;;
  try_except
    (server_data <- get_server client server_name ;;
     server <- dict_get server_data "server" (JObj []) ;;
     title <- dict_get server "title" (JStr server_name) ;;
     print [Lit nl; Lit "📖 Installation Guide for "; Val title] ;;
     print [Lit nl; Lit "Option 1: Direct Installation"] ;;
     packages <- dict_get server "packages" (JArr []) ;;
     (if truthy packages then
        pkgs <- iterate packages ;;
        for_each pkgs print_install
      else
        print [Lit "  No pre-packaged installation available."] ;;
        repo <- dict_get server "repository" JNull ;;
        when (truthy repo)
          (u <- dict_get repo "url" JNull ;;
           print [Lit "  Clone and build from source: "; Val u])) ;;
     print [Lit nl; Lit "Option 2: Use with MCP Client (e.g., Claude Desktop)"] ;;
     print [Lit "  Add to your MCP client config:"] ;;
     command <-
       (if truthy packages then
          n <- len packages ;;
          if 0 <? n then
            first_pkg <- first_item packages ;;
            dict_get first_pkg "runCommand" (JStr "server-command")
          else ret (JStr "path-to-server")
        else ret (JStr "path-to-server")) ;;
     name <- dict_get server "name" (JStr "server") ;;
     short <- short_name name ;;
     print [Lit nl; Lit "  {"; Lit nl;
            Lit "    "; Lit dq; Lit "mcpServers"; Lit dq; Lit ": {"; Lit nl;
            Lit "      "; Lit dq; Lit short; Lit dq; Lit ": {"; Lit nl;
            Lit "        "; Lit dq; Lit "command"; Lit dq; Lit ": "; Lit dq;
            Val command; Lit dq; Lit nl;
            Lit "      }"; Lit nl; Lit "    }"; Lit nl; Lit "  }"; Lit nl;
            Lit "        "])
    is_HTTPError
    (not_found_or_reraise (not_found server_name)).

(** The five calls inside the [try] of [main], in order. *)
Definition examples (fuel : nat) (client : MCPRegistryClient)
  (server_name : string) : list (M unit) :=
  [example_1_search_servers client;
   example_2_get_specific_server client server_name;
   example_3_list_versions client server_name;
   example_4_list_all_servers fuel client;
   example_5_installation_info client server_name].

(** The body of the [try] of [main]: the five calls, then its closing
    messages. *)
Definition run_examples (fuel : nat) (client : MCPRegistryClient)
  (server_name : string) : M unit :=
  example_1_search_servers client ;;
  example_2_get_specific_server client server_name ;;
  example_3_list_versions client server_name ;;
  example_4_list_all_servers fuel client ;;
  example_5_installation_info client server_name ;;
  print [Lit nl; Lit rule] ;;
  print [Lit "✓ All examples completed successfully!"] ;;
  print [Lit rule] ;;
  print [Lit nl; Lit "Next Steps:"] ;;
  print [Lit "  • Use these patterns in your MCP client or subregistry"] ;;
  print [Lit "  • Add caching to handle registry downtime"] ;;
  print [Lit "  • Implement error handling for production use"] ;;
  print [Lit "  • See API docs: http://localhost:8080/docs"].

Definition health_request (registry_url : string) : Request :=
  mkRequest GET (registry_url +++ "/health") [] [] None None.

Definition local_registry : string := "http://localhost:8080".

Definition example_server : string :=
  "io.modelcontextprotocol.anonymous/mcp-math-server".

(** What [main] has printed when it reaches the health check. *)
Definition opening : World :=
  [Print [Lit rule];
   Print [Lit "MCP Registry Consumer - Example Usage"];
   Print [Lit rule];
   Print [Lit nl; Lit "This script demonstrates how to discover and consume MCP servers"];
   Print [Lit "from the registry using the REST API."];
   Print [Lit nl; Lit "Registry URL: "; Lit local_registry]].

Definition report_error (e : exn) : M unit :=
  print [Lit nl; Lit "❌ Error: "; Err e] ;;
  emit (Traceback e).

Definition main (fuel : nat) : M unit :=
  print [Lit rule] ;;
  print [Lit "MCP Registry Consumer - Example Usage"] ;;
  print [Lit rule] ;;
  print [Lit nl; Lit "This script demonstrates how to discover and consume MCP servers"] ;;
  print [Lit "from the registry using the REST API."] ;;
  let registry_url := local_registry in
  print [Lit nl; Lit "Registry URL: "; Lit registry_url] ;;
  let client := new_client registry_url in
  reachable <-
    try_except
      (response <- send net (health_request registry_url) ;;
       print [Lit "✓ Registry is accessible"] ;;
       ret true)
      is_Exception
      (fun e =>
         print [Lit "❌ Cannot connect to registry: "; Err e] ;;
         print [Lit nl; Lit "Make sure the registry is running:"] ;;
         print [Lit "  cd registry && make docker-up"] ;;
         ret false) ;;
  if reachable then
    let server_name := example_server in
    try_except (run_examples fuel client server_name) is_Exception report_error
  else ret tt.

End Client.
End Consume.

(** ** [scripts/publish_server_rest.py] *)

Module Publish.
Local Open Scope run_scope.

(** What a run of the script is given. *)
Record Env : Type := mkEnv {
  environ : string -> option string;   (* [os.environ.get] *)
  default_server_json : string;        (* [server_root / "server.json"] *)
  path_text : string -> string;        (* [str(Path(s))], for [s] not empty *)
  load_json : string -> json + exn;    (* [open(path)] then [json.load] *)
  validate : json -> json -> option exn;
    (* [import jsonschema; jsonschema.validate(instance, schema)]:
       [None] when it returns, [Some e] when it raises [e] *)
  render : json -> string;             (* [str(v)] of a value that is no [str] *)
  net : Net
}.

(** [f"{v}"] *)
Definition py_str (env : Env) (v : json) : string :=
  match v with
  | JStr s => s
  | _ => render env v
  end.

(** [os.environ.get(name, default)] *)
Definition getenv (env : Env) (name default : string) : string :=
  match environ env name with
  | Some v => v
  | None => default
  end.

Definition schema_url : string :=
  "https://static.modelcontextprotocol.io/schemas/2025-09-29/server.schema.json".

Definition json_headers : list (string * Line) :=
  [("Accept"%string, [Lit "application/json, application/problem+json"]);
   ("Content-Type"%string, [Lit "application/json"])].

(** The [headers] dict of [publish_server] and [update_server_version]. *)
Definition submission_headers (auth_token : json) : list (string * Line) :=
  if truthy auth_token
  then assoc_set "Authorization" [Lit "Bearer "; Val auth_token] json_headers
  else json_headers.

Definition auth_request (registry_url : string) : Request :=
  mkRequest POST (registry_url +++ "/v0.1/auth/none") [] json_headers None (Some 10).

Definition schema_request : Request :=
  mkRequest GET schema_url [] [] None (Some 10).

Definition publish_request (registry_url : string) (server_data auth_token : json)
  : Request :=
  mkRequest POST (registry_url +++ "/v0.1/publish") []
            (submission_headers auth_token) (Some server_data) (Some 30).

Section Script.
Variable env : Env.

Definition update_endpoint (registry_url : string) (server_name version : json)
  : string :=
  registry_url +++ "/v0.1/servers/" +++ py_str env server_name
               +++ "/versions/" +++ py_str env version.

Definition update_request (registry_url : string)
  (server_name version server_data auth_token : json) : Request :=
  mkRequest PUT (update_endpoint registry_url server_name version) []
            (submission_headers auth_token) (Some server_data) (Some 30).

Definition search_request (registry_url : string) (server_name : json) : Request :=
  mkRequest GET (registry_url +++ "/v0.1/servers") [("search"%string, server_name)]
            [("Accept"%string, [Lit "application/json"])] None (Some 10).

Definition connectivity_request (registry_url : string) : Request :=
  mkRequest GET (registry_url +++ "/v0.1/servers") [] [] None (Some 5).

Definition get_auth_token_none (registry_url : string) : M json :=
  response <- send (net env) (auth_request registry_url) ;;
  raise_for_status response ;;
  data <- response_json response ;;
  token <- subscript data "registry_token" ;;
  expires_at <- dict_get data "expires_at" (JStr "unknown") ;;
  print [Lit "[OK] Got auth token from /auth/none (expires: "; Val expires_at; Lit ")"] ;;
  ret token.

Definition validate_server_json (server_json_path : string) : M json :=
  print [Lit "Validating server.json..."] ;;
  server_data <-
    match load_json env server_json_path with
    | inl v => ret v
    | inr e => raise e
    end ;;
  response <- send (net env) schema_request ;;
  raise_for_status response ;;
  schema <- response_json response ;;
  match validate env server_data schema with
  | Some e => raise e
  | None => ret tt
  end ;;
  print [Lit "[OK] Validation successful!"] ;;
  ret server_data.

Definition publish_server (registry_url : string) (server_data auth_token : json)
  : M json :=
  print [Lit "Publishing to: "; Lit registry_url; Lit "/v0.1/publish"] ;;
  response <- send (net env) (publish_request registry_url server_data auth_token) ;;
  print [Lit "Response Status: "; Val (JNum (status_code response))] ;;
  when (negb ((status_code response =? 200) || (status_code response =? 201)))
    (print [Lit "ERROR: Publishing failed with status ";
            Val (JNum (status_code response))] ;;
     error_data <- response_json response ;;
     print [Lit "Error details:"] ;;
     print [Dump error_data] ;;
     raise_for_status response) ;;
  print [Lit "[OK] Successfully published!"] ;;
  response_json response.

Definition update_server_version (registry_url : string)
  (server_name version server_data auth_token : json) : M json :=
  let endpoint := update_endpoint registry_url server_name version in
  print [Lit "Updating: "; Lit endpoint] ;;
  response <- send (net env)
    (update_request registry_url server_name version server_data auth_token) ;;
  print [Lit "Response Status: "; Val (JNum (status_code response))] ;;
  when (negb (status_code response =? 200))
    (print [Lit "ERROR: Update failed with status ";
            Val (JNum (status_code response))] ;;
     error_data <- response_json response ;;
     print [Lit "Error details:"] ;;
     print [Dump error_data] ;;
     raise_for_status response) ;;
  print [Lit "[OK] Successfully updated!"] ;;
  response_json response.

Definition get_server_info (registry_url : string) (server_name : json) : M json :=
  response <- send (net env) (search_request registry_url server_name) ;;
  raise_for_status response ;;
  response_json response.

(** *** [main], section by section *)

(** The configuration read from the process environment. *)
Record Config : Type := mkConfig {
  server_json_path : string;
  registry_url : string;
  env_auth_token : json;
  update_mode : bool;
  auto_auth : bool
}.

Definition resolve_config : Config :=
  {| server_json_path :=
       match environ env "MCP_SERVER_JSON" with
       | Some custom_server_path =>
           if truthy (JStr custom_server_path)
           then path_text env custom_server_path
           else default_server_json env
       | None => default_server_json env
       end;
     registry_url := getenv env "MCP_REGISTRY_URL" "http://localhost:8080";
     env_auth_token :=
       match environ env "MCP_AUTH_TOKEN" with
       | Some t => JStr t
       | None => JNull
       end;
     update_mode := String.eqb (lower (getenv env "MCP_UPDATE_MODE" "false")) "true";
     auto_auth := String.eqb (lower (getenv env "MCP_AUTO_AUTH" "true")) "true" |}.

Definition print_configuration (c : Config) : M unit :=
  print [Lit rule] ;;
  print [Lit "MCP Server Publisher - REST API Mode"] ;;
  print [Lit rule] ;;
  print [] ;;
  print [Lit "Configuration:"] ;;
  print [Lit "   Server JSON: "; Lit (server_json_path c)] ;;
  print [Lit "   Registry URL: "; Lit (registry_url c)] ;;
  print [Lit "   Auth Token: ";
         Lit (if truthy (env_auth_token c) then "Set (from env)" else "Not set")] ;;
  print [Lit "   Auto Auth: "; Val (JBool (auto_auth c))] ;;
  print [Lit "   Update Mode: "; Val (JBool (update_mode c))] ;;
  print [].

(** [# Show server info]; it yields [(server_name, server_version)]. *)
Definition show_server_information (server_data : json) : M (json * json) :=
  print [Lit "Server Information:"] ;;
  server_name <- dict_get server_data "name" (JStr "unknown") ;;
  server_version <- dict_get server_data "version" (JStr "unknown") ;;
  print [Lit "   Name:        "; Val server_name] ;;
  title <- dict_get server_data "title" (JStr "N/A") ;;
  print [Lit "   Title:       "; Val title] ;;
  print [Lit "   Version:     "; Val server_version] ;;
  desc <- dict_get server_data "description" (JStr "N/A") ;;
  sliceable desc ;;
  n <- len desc ;;
  print [Lit "   Description: "; Prefix 60 desc;
         Lit (if 60 <? n then "..." else "")] ;;
  match server_data with
  | JObj items =>
      match assoc "packages" items with
      | Some packages =>
          n <- len packages ;;
          print [Lit "   Packages:    "; Val (JNum n)] ;;
          pkgs <- iterate packages ;;
          for_each pkgs (fun pkg =>
            registry_type <- dict_get pkg "registryType" JNull ;;
            identifier <- dict_get pkg "identifier" JNull ;;
            version <- dict_get pkg "version" JNull ;;
            print [Lit "      - "; Val registry_type; Lit ": "; Val identifier;
                   Lit " v"; Val version])
      | None => ret tt
      end ;;
      match assoc "remotes" items with
      | Some remotes =>
          n <- len remotes ;;
          print [Lit "   Remotes:     "; Val (JNum n)] ;;
          rs <- iterate remotes ;;
          for_each rs (fun remote =>
            type <- dict_get remote "type" JNull ;;
            u <- dict_get remote "url" JNull ;;
            print [Lit "      - "; Val type; Lit ": "; Val u])
      | None => ret tt
      end
  | _ => raise TypeError
  end ;;
  print [] ;;
  ret (server_name, server_version).

(** [# Check if registry is accessible] *)
Definition check_connectivity (c : Config) : M unit :=
  print [Lit "Checking registry connectivity..."] ;;
  response <- send (net env) (connectivity_request (registry_url c)) ;;
  raise_for_status response ;;
  print [Lit "[OK] Registry is accessible"] ;;
  print [].

(** [# Get authentication token if not provided]; it yields the
    [auth_token] used from then on. *)
Definition acquire_token (c : Config) : M json :=
  if negb (truthy (env_auth_token c)) && auto_auth c then
    print [Lit "Getting authentication token from /auth/none..."] ;;
    auth_token <- get_auth_token_none (registry_url c) ;;
    sliceable auth_token ;;
    print [Lit "[OK] Using auto-generated token: "; Prefix 20 auth_token; Lit "..."] ;;
    print [] ;;
    ret auth_token
  else ret (env_auth_token c).

(** What [main] holds when it reaches [# Publish or update]. *)
Record Ready : Type := mkReady {
  server_data : json;
  server_name : json;
  server_version : json;
  auth_token : json
}.

(** [main] up to, and excluding, [# Publish or update]. *)
Definition prepare (c : Config) : M Ready :=
  print_configuration c ;;
  server_data <- validate_server_json (server_json_path c) ;;
  print [] ;;
  nv <- show_server_information server_data ;;
  check_connectivity c ;;
  auth_token <- acquire_token c ;;
  ret (mkReady server_data (fst nv) (snd nv) auth_token).

(** [# Publish or update] *)
Definition submit (c : Config) (r : Ready) : M json :=
  if update_mode c then
    print [Lit rule] ;;
    print [Lit "UPDATE MODE: Updating version "; Val (server_version r)] ;;
    print [Lit rule] ;;
    print [] ;;
    update_server_version (registry_url c) (server_name r) (server_version r)
                          (server_data r) (auth_token r)
  else
    print [Lit rule] ;;
    print [Lit "PUBLISH MODE: Publishing new server or version"] ;;
    print [Lit rule] ;;
    print [] ;;
    publish_server (registry_url c) (server_data r) (auth_token r).

(** [main] from [# Display result] to its [return 0]. *)
Definition display_and_verify (c : Config) (r : Ready) (result : json) : M Z :=
  print [] ;;
  print [Lit "Published Server Details:"] ;;
  print [DumpPrefix 1000 result] ;;
  print [] ;;
  print [Lit "Verifying publication..."] ;;
  emit (Sleep 2) ;;
  server_info <- get_server_info (registry_url c) (server_name r) ;;
  print [Lit "[OK] Server is now visible in registry!"] ;;
  print [] ;;
  print [Lit "Available versions:"] ;;
  servers <- dict_get server_info "servers" (JArr []) ;;
  items <- iterate servers ;;
  for_each items (fun server =>
    srv <- dict_get server "server" (JObj []) ;;
    meta0 <- dict_get server "_meta" (JObj []) ;;
    meta <- dict_get meta0 Consume.official (JObj []) ;;
    version <- dict_get srv "version" JNull ;;
    published <- dict_get meta "publishedAt" (JStr "unknown") ;;
    print [Lit "   - v"; Val version; Lit " (published: "; Val published; Lit ")"]) ;;
  print [] ;;
  print [Lit rule] ;;
  print [Lit "SUCCESS"] ;;
  print [Lit rule] ;;
  print [] ;;
  print [Lit "Next steps:"] ;;
  print [Lit "  1. View server: "; Lit (registry_url c); Lit "/v0.1/servers?search=";
         Val (server_name r)] ;;
  print [Lit "  2. Test with an MCP client"] ;;
  print [Lit "  3. Set up CI/CD for automated publishing"] ;;
  print [] ;;
  ret 0.

(** The request that [submit] sends. *)
Definition submission_request (c : Config) (r : Ready) : Request :=
  if update_mode c
  then update_request (registry_url c) (server_name r) (server_version r)
                      (server_data r) (auth_token r)
  else publish_request (registry_url c) (server_data r) (auth_token r).

Definition main : M Z :=
  let c := resolve_config in
  r <- prepare c ;;
  result <- submit c r ;;
  display_and_verify c r result.

(** [if __name__ == "__main__":] the exit status of the process, when it
    exits. An exception that nothing catches ends the interpreter with
    status 1 after a traceback. *)
Definition script (w : World) : option Z * World :=
  match main w with
  | (Ok code, w') => (Some code, w')
  | (Raise KeyboardInterrupt, w') =>
      (Some 1, w' ++ [Print [Lit nl; Lit nl; Lit "Interrupted by user"]])
  | (Raise e, w') => (Some 1, w' ++ [Traceback e])
  | (Diverge, w') => (None, w')
  end.

End Script.
End Publish.

(** ** Vocabulary for statements about runs *)

Module Trace.

(** A computation that always comes back (with a value or an exception),
    only adds events to the trace, and sends only requests satisfying [P]. *)
Definition sends_only {A : Type} (P : Request -> Prop) (c : M A) : Prop :=
  forall w, exists r evs,
    c w = (r, w ++ evs) /\ Forall P (requests_of evs) /\ r <> Diverge.

(** A computation that sends nothing. *)
Definition quiet {A : Type} (c : M A) : Prop := sends_only (fun _ => False) c.

(** A computation that always comes back and sends exactly the requests
    [l], in that order. *)
Definition sends_exactly {A : Type} (l : list Request) (c : M A) : Prop :=
  forall w, exists r evs,
    c w = (r, w ++ evs) /\ requests_of evs = l /\ r <> Diverge.

End Trace.
Export Trace.

(** ** Registries that serve a catalog in pages *)

Module Pagination.
Import Consume.

(** The listing request that example 4 sends for a given cursor. *)
Definition page_request (client : MCPRegistryClient) (cursor : json) : Request :=
  list_servers_request client JNull "latest" 10 cursor.

(** The page carried by an answer: its items and its continuation cursor
    ([JNull] when the body has none). An error status, a body that is no
    JSON object or a [servers] entry that is no list is not a page. *)
Definition page_of (o : Outcome) : option (list json * json) :=
  match o with
  | Responded r =>
      if (400 <=? status_code r) && (status_code r <? 600) then None
      else
        match json_body r with
        | Some (JObj body) =>
            match (match assoc "servers" body with Some x => x | None => JArr [] end) with
            | JArr items =>
                Some (items,
                      match assoc "nextCursor" body with Some c => c | None => JNull end)
            | _ => None
            end
        | _ => None
        end
  | Failed _ => None
  end.

(** The registry [net], asked with [cursor] after the requests [history],
    serves exactly the pages [pages], each named by the cursor of the one
    before it; only the last page comes without a continuation cursor. *)
Fixpoint serves_pages (net : Net) (client : MCPRegistryClient)
  (history : list Request) (cursor : json) (pages : list (list json * json)) : Prop :=
  match pages with
  | [] => False
  | (items, next) :: rest =>
      page_of (net history (page_request client cursor)) = Some (items, next)
      /\ match rest with
         | [] => truthy next = false
         | _ :: _ =>
             truthy next = true
             /\ serves_pages net client (history ++ [page_request client cursor]) next rest
         end
  end.

(** The listing requests that walk through [pages]. *)
Fixpoint page_requests (client : MCPRegistryClient) (cursor : json)
  (pages : list (list json * json)) : list Request :=
  match pages with
  | [] => []
  | (_, next) :: rest => page_request client cursor :: page_requests client next rest
  end.

End Pagination.

(** ** Mock registries and environments used by the examples below *)

Module Scenarios.
Import Consume.



Definition local_client : MCPRegistryClient := new_client local_registry.

Definition math_server : string := example_server.

(** A registry that answers 500 to the lookup of the latest version of the
    example server, and 200 with an empty JSON object to everything else. *)
Definition failing_lookup_registry : Net :=
  fun _ req =>
    if String.eqb (url req) (get_server_version_url local_client math_server "latest")
    then Responded (mkResponse 500 None)
    else Responded (mkResponse 200 (Some (JObj []))).

(** A two-page catalog: the first page names the second by cursor [c1]. *)
Definition item (name : string) : json :=
  JObj [("server"%string, JObj [("name"%string, JStr name)])].

Definition two_pages : list (list json * json) :=
  [([item "a/one"; item "a/two"], JStr "c1"); ([item "b/three"], JNull)].

Definition two_page_registry : Net :=
  fun _ req =>
    match assoc "cursor" (params req) with
    | None =>
        Responded (mkResponse 200 (Some (JObj
          [("servers"%string, JArr [item "a/one"; item "a/two"]);
           ("nextCursor"%string, JStr "c1")])))
    | Some c =>
        if equals_str c "c1"
        then Responded (mkResponse 200 (Some (JObj
               [("servers"%string, JArr [item "b/three"])])))
        else Responded (mkResponse 404 None)
    end.

(** The descriptor [{"name": "ns/srv", "version": "1.0.0", "packages":
    [{"registryType": "npm", "identifier": "srv-pkg", "version": "1.0.0"}]}]. *)
Definition descriptor : json :=
  JObj [("name"%string, JStr "ns/srv");
        ("version"%string, JStr "1.0.0");
        ("packages"%string,
         JArr [JObj [("registryType"%string, JStr "npm");
                     ("identifier"%string, JStr "srv-pkg");
                     ("version"%string, JStr "1.0.0")]])].

(** A registry (and schema host) that answers every GET with 200 and an
    empty object, hands out the token [token] on [/v0.1/auth/none], and
    answers a submission, POST or PUT, with [submit_status] and an empty
    object. *)
Definition mock_registry (submit_status : Z) : Net :=
  fun _ req =>
    match meth req with
    | GET => Responded (mkResponse 200 (Some (JObj [])))
    | POST =>
        if String.eqb (url req) "http://localhost:8080/v0.1/auth/none"
        then Responded (mkResponse 200 (Some (JObj [("registry_token"%string, JStr "token")])))
        else Responded (mkResponse submit_status (Some (JObj [])))
    | PUT => Responded (mkResponse submit_status (Some (JObj [])))
    end.

(** A run on [descriptor]: [update] sets [MCP_UPDATE_MODE], [valid] says
    whether the schema engine accepts the descriptor. *)
Definition mock_env (update valid : bool) (submit_status : Z) : Publish.Env :=
  Publish.mkEnv
    (fun name =>
       if String.eqb name "MCP_UPDATE_MODE"
       then Some (if update then "true" else "false")%string
       else None)
    "mcp_server_test/server.json"
    (fun path => path)
    (fun _ => inl descriptor)
    (fun _ _ => if valid then None else Some ValidationError)
    (fun _ => EmptyString)
    (mock_registry submit_status).

End Scenarios.

(** ** Further vocabulary and mock registries *)

Module Coverage.
Import Consume.

(** Every byte of [s] satisfies [p]. *)
Fixpoint all_chars (p : ascii -> bool) (s : string) : bool :=
  match s with
  | EmptyString => true
  | String c tl => p c && all_chars p tl
  end.

(** A byte that [quote] can produce: an always-safe one, or [%]. *)
Definition url_safe (c : ascii) : bool := always_safe c || Ascii.eqb c "%".

(** A registry that cannot be reached: every call fails in transport. *)
Definition unreachable_registry : Net :=
  fun _ _ => Failed (TransportError "connection refused").

(** A registry whose every listing page names a next page. *)
Definition endless_registry : Net :=
  fun _ _ =>
    Responded (mkResponse 200 (Some (JObj
      [("servers"%string, JArr []); ("nextCursor"%string, JStr "more")]))).

(** No exception of class [Exception] leaves the computation. *)
Definition lets_no_Exception_out {A : Type} (c : M A) : Prop :=
  forall w, match fst (c w) with
            | Raise e => is_Exception e = false
            | _ => True
            end.

(** A registry that knows one server, which has a name and nothing else. *)
Definition bare_server_registry : Net :=
  fun _ _ =>
    Responded (mkResponse 200 (Some (JObj
      [("server"%string, JObj [("name"%string, JStr "ns/srv")])]))).

(** One of the sixteen spellings of [true] in upper and lower case. *)
Definition spells_true (v : string) : bool :=
  match v with
  | String a (String b (String c (String d EmptyString))) =>
      (Ascii.eqb a "t" || Ascii.eqb a "T") && (Ascii.eqb b "r" || Ascii.eqb b "R")
      && (Ascii.eqb c "u" || Ascii.eqb c "U") && (Ascii.eqb d "e" || Ascii.eqb d "E")
  | _ => false
  end.

(** The process environment holding the given variables and no other. *)
Definition environment (vars : list (string * string)) : string -> option string :=
  fun name => assoc name vars.

(** A run on the mock registry with the given process environment and a
    schema engine that accepts the descriptor. *)
Definition env_with (vars : list (string * string)) (submit_status : Z) : Publish.Env :=
  Publish.mkEnv (environment vars) "mcp_server_test/server.json" (fun path => path)
                (fun _ => inl Scenarios.descriptor) (fun _ _ => None)
                (fun _ => EmptyString) (Scenarios.mock_registry submit_status).

(** A run whose descriptor file cannot be read. *)
Definition env_without_file : Publish.Env :=
  Publish.mkEnv (fun _ => None) "mcp_server_test/server.json" (fun path => path)
                (fun _ => inr OSError) (fun _ _ => None)
                (fun _ => EmptyString) (Scenarios.mock_registry 201).

(** The mock registry, except that the search by name that follows the
    submission is answered with 500. *)
Definition registry_failing_verification : Net :=
  fun history req =>
    match meth req, params req with
    | GET, _ :: _ => Responded (mkResponse 500 None)
    | _, _ => Scenarios.mock_registry 201 history req
    end.

Definition env_failing_verification : Publish.Env :=
  Publish.mkEnv (fun _ => None) "mcp_server_test/server.json" (fun path => path)
                (fun _ => inl Scenarios.descriptor) (fun _ _ => None)
                (fun _ => EmptyString) registry_failing_verification.

(** A registry that answers every request with [status] and a body that is
    not JSON. *)
Definition plain_text_registry (status : Z) : Net :=
  fun _ _ => Responded (mkResponse status None).

Definition env_plain_text (status : Z) : Publish.Env :=
  Publish.mkEnv (fun _ => None) "mcp_server_test/server.json" (fun path => path)
                (fun _ => inl Scenarios.descriptor) (fun _ _ => None)
                (fun _ => EmptyString) (plain_text_registry status).

(** The computation returns only values satisfying [Q]. *)
Definition returns_only {A : Type} (Q : A -> Prop) (c : M A) : Prop :=
  forall w a w', c w = (Ok a, w') -> Q a.

End Coverage.

(** ** Facts about strings and percent-encoding *)

Section StringFacts.

Lemma append_assoc (a b c : string) : (a +++ b) +++ c = a +++ b +++ c.
Proof. induction a as [|x a IH]; simpl; [reflexivity | now rewrite IH]. Qed.

Lemma count_char_append (c : ascii) (a b : string) :
  count_char c (a +++ b) = (count_char c a + count_char c b)%nat.
Proof. induction a as [|x a IH]; simpl; [reflexivity | rewrite IH; lia]. Qed.

Lemma split_on_length (sep : ascii) (s : string) :
  List.length (split_on sep s) = S (count_char sep s).
Proof.
  induction s as [|c s IH]; simpl; [reflexivity|].
  destruct (Ascii.eqb c sep); simpl; [now rewrite IH|].
  destruct (split_on sep s); simpl in *; lia.
Qed.

(** Splitting at the first separator: the part before it is one segment. *)
Lemma split_on_first (sep : ascii) (a b : string) :
  count_char sep a = O ->
  split_on sep (a +++ String sep b) = a :: split_on sep b.
Proof.
  induction a as [|c a IH]; simpl; intros H.
  - now rewrite Ascii.eqb_refl.
  - destruct (Ascii.eqb c sep); [discriminate|].
    now rewrite IH.
Qed.

Lemma split_on_none (sep : ascii) (a : string) :
  count_char sep a = O -> split_on sep a = [a].
Proof.
  induction a as [|c a IH]; simpl; intros H; [reflexivity|].
  destruct (Ascii.eqb c sep); [discriminate|].
  now rewrite IH.
Qed.

Lemma quote_byte_no_slash (c : ascii) : count_char "/" (quote_byte c) = O.
Proof.
  destruct c as [[] [] [] [] [] [] [] []]; reflexivity.
Qed.

Lemma quote_no_slash (s : string) : count_char "/" (quote s) = O.
Proof.
  induction s as [|c s IH]; simpl; [reflexivity|].
  now rewrite count_char_append, quote_byte_no_slash, IH.
Qed.

Lemma unquote_quote_byte (c : ascii) (rest : string) :
  unquote (quote_byte c +++ rest) = String c (unquote rest).
Proof.
  destruct c as [[] [] [] [] [] [] [] []]; reflexivity.
Qed.

Lemma unquote_quote (s : string) : unquote (quote s) = s.
Proof.
  induction s as [|c s IH]; simpl; [reflexivity|].
  now rewrite unquote_quote_byte, IH.
Qed.

Lemma quote_latest : quote "latest" = "latest"%string.
Proof. reflexivity. Qed.

End StringFacts.

(** ** Facts about traces *)

Lemma requests_of_app (a b : World) :
  requests_of (a ++ b) = requests_of a ++ requests_of b.
Proof.
  induction a as [|[r|l|n|e] a IH]; simpl; rewrite ?IH; reflexivity.
Qed.

Lemma requests_of_print (w : World) (l : Line) :
  requests_of (w ++ [Print l]) = requests_of w.
Proof. rewrite requests_of_app; simpl; now rewrite app_nil_r. Qed.

Lemma requests_of_sent (w : World) (r : Request) :
  requests_of (w ++ [Sent r]) = requests_of w ++ [r].
Proof. now rewrite requests_of_app. Qed.

(** ** Facts about sequencing *)

Lemma bind_ok {A B : Type} (c : M A) (k : A -> M B) (w w' : World) (a : A) :
  c w = (Ok a, w') -> bind c k w = k a w'.
Proof. intros H. unfold bind. now rewrite H. Qed.

Lemma bind_raise {A B : Type} (c : M A) (k : A -> M B) (w w' : World) (e : exn) :
  c w = (Raise e, w') -> bind c k w = (Raise e, w').
Proof. intros H. unfold bind. now rewrite H. Qed.

Lemma bind_print {B : Type} (l : Line) (k : unit -> M B) (w : World) :
  bind (print l) k w = k tt (w ++ [Print l]).
Proof. reflexivity. Qed.

Lemma bind_assoc {A B C : Type} (c : M A) (k1 : A -> M B) (k2 : B -> M C) (w : World) :
  bind (bind c k1) k2 w = bind c (fun a => bind (k1 a) k2) w.
Proof. unfold bind. destruct (c w) as [[a|e|] w']; reflexivity. Qed.

Ltac trace_simpl :=
  repeat rewrite requests_of_app; simpl; rewrite ?app_nil_r; simpl.

(** ** Computations that send only certain requests *)

Section SendsOnly.
Context {A B : Type}.
Variable P : Request -> Prop.

Lemma sends_only_ret (a : A) : sends_only P (ret a).
Proof.
  intros w. exists (Ok a), []. rewrite app_nil_r.
  repeat split; [constructor | discriminate].
Qed.

Lemma sends_only_raise (e : exn) : sends_only P (@raise A e).
Proof.
  intros w. exists (Raise e), []. rewrite app_nil_r.
  repeat split; [constructor | discriminate].
Qed.

Lemma sends_only_print (l : Line) : sends_only P (print l).
Proof.
  intros w. exists (Ok tt), [Print l].
  repeat split; [constructor | discriminate].
Qed.

Lemma sends_only_sleep (n : Z) : sends_only P (emit (Sleep n)).
Proof.
  intros w. exists (Ok tt), [Sleep n].
  repeat split; [constructor | discriminate].
Qed.

Lemma sends_only_traceback (e : exn) : sends_only P (emit (Traceback e)).
Proof.
  intros w. exists (Ok tt), [Traceback e].
  repeat split; [constructor | discriminate].
Qed.

Lemma sends_only_send (net : Net) (req : Request) :
  P req -> sends_only P (send net req).
Proof.
  intros HP w. unfold send.
  destruct (net (requests_of w) req) as [r|e];
    [exists (Ok r), [Sent req] | exists (Raise e), [Sent req]];
    repeat split; try discriminate; simpl; auto.
Qed.

Lemma sends_only_bind (c : M A) (k : A -> M B) :
  sends_only P c -> (forall a, sends_only P (k a)) -> sends_only P (bind c k).
Proof.
  intros Hc Hk w. unfold bind.
  destruct (Hc w) as [r [evs [-> [Hevs Hr]]]].
  destruct r as [a|e|].
  - destruct (Hk a (w ++ evs)) as [r' [evs' [-> [Hevs' Hr']]]].
    exists r', (evs ++ evs'). rewrite app_assoc.
    repeat split; auto.
    rewrite requests_of_app. apply Forall_app; auto.
  - exists (Raise e), evs. repeat split; auto. discriminate.
  - congruence.
Qed.

Lemma sends_only_try_except (body : M A) (class : exn -> bool)
  (handler : exn -> M A) :
  sends_only P body -> (forall e, sends_only P (handler e)) ->
  sends_only P (try_except body class handler).
Proof.
  intros Hc Hk w. unfold try_except.
  destruct (Hc w) as [r [evs [-> [Hevs Hr]]]].
  destruct r as [a|e|].
  - exists (Ok a), evs. auto.
  - destruct (class e); [|exists (Raise e), evs; auto].
    destruct (Hk e (w ++ evs)) as [r' [evs' [-> [Hevs' Hr']]]].
    exists r', (evs ++ evs'). rewrite app_assoc.
    repeat split; auto.
    rewrite requests_of_app. apply Forall_app; auto.
  - congruence.
Qed.
End SendsOnly.

Lemma sends_only_weaken {A : Type} (P Q : Request -> Prop) (c : M A) :
  (forall r, P r -> Q r) -> sends_only P c -> sends_only Q c.
Proof.
  intros HPQ Hc w. destruct (Hc w) as [r [evs [-> [Hevs Hr]]]].
  exists r, evs. repeat split; auto.
  eapply Forall_impl; eauto.
Qed.

Lemma sends_only_when (P : Request -> Prop) (c : bool) (body : M unit) :
  sends_only P body -> sends_only P (when c body).
Proof. destruct c; simpl; [auto | intros _; apply sends_only_ret]. Qed.

Lemma sends_only_for_each {A : Type} (P : Request -> Prop) (l : list A)
  (body : A -> M unit) :
  (forall x, sends_only P (body x)) -> sends_only P (for_each l body).
Proof.
  intros Hbody. induction l as [|x l IH]; simpl.
  - apply sends_only_ret.
  - apply sends_only_bind; auto.
Qed.

Lemma sends_only_dict_get (P : Request -> Prop) (v : json) (k : string) (d : json) :
  sends_only P (dict_get v k d).
Proof. destruct v; simpl; try apply sends_only_ret; apply sends_only_raise. Qed.

Lemma sends_only_iterate (P : Request -> Prop) (v : json) : sends_only P (iterate v).
Proof.
  destruct v; simpl; try apply sends_only_ret; apply sends_only_raise.
Qed.

Lemma sends_only_len (P : Request -> Prop) (v : json) : sends_only P (len v).
Proof. destruct v; simpl; try apply sends_only_ret; apply sends_only_raise. Qed.

Lemma sends_only_sliceable (P : Request -> Prop) (v : json) : sends_only P (sliceable v).
Proof. destruct v; simpl; try apply sends_only_ret; apply sends_only_raise. Qed.

Lemma sends_only_subscript (P : Request -> Prop) (v : json) (k : string) :
  sends_only P (subscript v k).
Proof.
  destruct v; simpl; try apply sends_only_raise.
  destruct (assoc k items); [apply sends_only_ret | apply sends_only_raise].
Qed.

Lemma sends_only_first_item (P : Request -> Prop) (v : json) :
  sends_only P (first_item v).
Proof.
  destruct v as [| | |s|[|x l]|]; simpl; try apply sends_only_raise;
    try apply sends_only_ret.
  destruct (chars s); [apply sends_only_raise | apply sends_only_ret].
Qed.

Lemma sends_only_raise_for_status (P : Request -> Prop) (r : Response) :
  sends_only P (raise_for_status r).
Proof.
  unfold raise_for_status.
  destruct (_ && _); [apply sends_only_raise | apply sends_only_ret].
Qed.

Lemma sends_only_response_json (P : Request -> Prop) (r : Response) :
  sends_only P (response_json r).
Proof.
  unfold response_json.
  destruct (json_body r); [apply sends_only_ret | apply sends_only_raise].
Qed.

Create HintDb sends.

#[local] Hint Resolve sends_only_ret sends_only_raise sends_only_print
  sends_only_sleep sends_only_traceback sends_only_when sends_only_for_each
  sends_only_dict_get sends_only_iterate sends_only_len sends_only_sliceable
  sends_only_subscript sends_only_first_item sends_only_raise_for_status
  sends_only_response_json sends_only_try_except : sends.

(** Walks through a computation written with [;;], one step at a time. *)
Ltac sends_steps :=
  repeat first
    [ apply sends_only_bind; [|intros ?]
    | apply sends_only_when
    | apply sends_only_for_each; intros ?
    | apply sends_only_try_except; [|intros ?]
    | solve [auto with sends]
    | match goal with
      | |- sends_only _ (if ?b then _ else _) => destruct b
      | |- sends_only _ (match ?x with _ => _ end) => destruct x
      end ].

(** ** The registry client *)

Import Consume.

(** C5: [get_server name] is [get_server_version name "latest"]: the same
    run (request, exceptions and result), and the request goes to the path
    [/servers/<encoded name>/versions/latest]. *)
Theorem get_server_is_latest_version (net : Net) (self : MCPRegistryClient)
  (server_name : string) (w : World) :
  get_server net self server_name w
    = get_server_version net self server_name "latest" w
  /\ requests_of (snd (get_server net self server_name w))
       = requests_of w ++ [get_server_version_request self server_name "latest"]
  /\ url (get_server_version_request self server_name "latest")
       = api_base self +++ "/servers/" +++ quote server_name +++ "/versions/latest".
Proof.
  split; [reflexivity|]. split; [|reflexivity].
  unfold get_server, get_server_version, bind, send.
  destruct (net _ _) as [r|e]; simpl.
  - unfold raise_for_status, response_json, raise, ret.
    destruct (_ && _); simpl; [apply requests_of_sent|].
    destruct (json_body r); simpl; apply requests_of_sent.
  - apply requests_of_sent.
Qed.

Ltac run_call :=
  unfold bind, send;
  match goal with
  | |- context [match ?n ?h ?q with Responded _ => _ | Failed _ => _ end] =>
      destruct (n h q) as [?r|?e]; simpl
  end;
  unfold raise_for_status, response_json, raise, ret;
  repeat match goal with
         | |- context [if ?b then _ else _] => destruct b; simpl
         | |- context [match json_body ?r with _ => _ end] =>
             destruct (json_body r); simpl
         end;
  try apply requests_of_sent.

Lemma get_server_version_sends (net : Net) (self : MCPRegistryClient)
  (server_name version : string) (w : World) :
  requests_of (snd (get_server_version net self server_name version w))
    = requests_of w ++ [get_server_version_request self server_name version].
Proof. unfold get_server_version. run_call. Qed.

Lemma list_servers_sends (net : Net) (self : MCPRegistryClient)
  (search : json) (version : string) (limit : Z) (cursor : json) (w : World) :
  requests_of (snd (list_servers net self search version limit cursor w))
    = requests_of w ++ [list_servers_request self search version limit cursor].
Proof. unfold list_servers. run_call. Qed.

(** C6: [get_server_version] sends one GET whose path, after the API base,
    has exactly the segments [servers], the encoded name, [versions] and the
    encoded version; the name and the version are each percent-encoded on
    their own, neither encoding contains a [/], and percent-decoding each
    segment gives back the original string. *)
Theorem get_server_version_path_round_trip (net : Net) (self : MCPRegistryClient)
  (server_name version : string) (w : World) :
  let req := get_server_version_request self server_name version in
  let path := ("/servers/" +++ quote server_name +++ "/versions/" +++ quote version)%string in
  requests_of (snd (get_server_version net self server_name version w))
    = requests_of w ++ [req]
  /\ meth req = GET
  /\ url req = api_base self +++ path
  /\ split_on "/" path
       = [EmptyString; "servers"%string; quote server_name; "versions"%string;
          quote version]
  /\ count_char "/" (quote server_name) = O
  /\ unquote (quote server_name) = server_name
  /\ unquote (quote version) = version.
Proof.
  intros req path.
  split; [apply get_server_version_sends|].
  split; [reflexivity|]. split; [reflexivity|].
  split.
  - unfold path.
    change ("/servers/" +++ quote server_name +++ "/versions/" +++ quote version)
      with (EmptyString +++ String "/" ("servers" +++
              String "/" (quote server_name +++
                String "/" ("versions" +++ String "/" (quote version))))).
    rewrite split_on_first by reflexivity.
    rewrite split_on_first by reflexivity.
    rewrite split_on_first by apply quote_no_slash.
    rewrite split_on_first by reflexivity.
    rewrite split_on_none by apply quote_no_slash.
    reflexivity.
  - split; [apply quote_no_slash|].
    split; apply unquote_quote.
Qed.

(** C3, as the code has it: [list_servers] sends one GET to [/servers]
    whose [limit] parameter is the caller's [limit], unchanged, whatever its
    value; [search] and [cursor] are left out exactly when they are [None]
    or another false value (the empty string), and sent unchanged otherwise. *)
Theorem list_servers_params_pass_through (net : Net) (self : MCPRegistryClient)
  (search : json) (version : string) (limit : Z) (cursor : json) (w : World) :
  let req := list_servers_request self search version limit cursor in
  requests_of (snd (list_servers net self search version limit cursor w))
    = requests_of w ++ [req]
  /\ url req = api_base self +++ "/servers"
  /\ assoc "limit" (params req) = Some (JNum limit)
  /\ assoc "version" (params req) = Some (JStr version)
  /\ assoc "search" (params req) = (if truthy search then Some search else None)
  /\ assoc "cursor" (params req) = (if truthy cursor then Some cursor else None)
  /\ (assoc "search" (params req) = None <-> truthy search = false)
  /\ (assoc "cursor" (params req) = None <-> truthy cursor = false).
Proof.
  intros req.
  split; [apply list_servers_sends|].
  split; [reflexivity|].
  unfold req, list_servers_request, list_servers_params; simpl.
  destruct (truthy search), (truthy cursor); simpl;
    repeat split; try reflexivity; try discriminate; auto.
Qed.

(** C3, the claim as stated fails: with [limit=0] the request carries
    [limit=0], outside 1..100; and with [search=""] (present, not [None])
    the [search] parameter is left out. *)
Lemma list_servers_limit_not_constrained :
  let req := list_servers_request Scenarios.local_client (JStr "") "latest" 0 JNull in
  ~ (exists n, assoc "limit" (params req) = Some (JNum n) /\ 1 <= n <= 100)
  /\ assoc "search" (params req) = None.
Proof.
  split; [|reflexivity].
  intros [n [H Hn]]. simpl in H. injection H as <-. lia.
Qed.

(** ** The update endpoint of the publish script *)

Import Publish.

Lemma update_server_version_sends (env : Env) (registry_url : string)
  (server_name version server_data auth_token : json) (w : World) :
  requests_of (snd (update_server_version env registry_url server_name version
                                           server_data auth_token w))
    = requests_of w
      ++ [update_request env registry_url server_name version server_data auth_token].
Proof.
  unfold update_server_version, bind, print, emit, send; simpl.
  rewrite requests_of_print.
  destruct (net env _ _) as [r|e]; simpl; [|now trace_simpl].
  unfold when, raise_for_status, response_json, bind, print, emit, raise, ret.
  destruct (negb _); simpl;
    destruct (json_body r); simpl;
    try destruct (_ && _); simpl; now trace_simpl.
Qed.

(** C10: [update_server_version] puts the name and the version into the PUT
    URL as they are.  When the name contains a [/] the path
    [/v0.1/servers/{name}/versions/{version}] has at least seven segments,
    the name being spread over more than one.  The discovery client built on
    the same base URL sends [get_server_version] for the same name and
    version to the path [/v0.1/servers/{quote name}/versions/{quote version}],
    which always has six segments, the encoded name being exactly one of
    them. *)
Theorem update_endpoint_is_not_encoded (env : Env) (base : string)
  (server_name version : string) (server_data auth_token : json) (w : World)
  (Hslash : (0 < count_char "/" server_name)%nat) :
  let req := update_request env base (JStr server_name) (JStr version)
                            server_data auth_token in
  let client := new_client base in
  let lookup := get_server_version_request client server_name version in
  let lookup_path := ("/v0.1/servers/" +++ quote server_name
                      +++ "/versions/" +++ quote version)%string in
  requests_of (snd (update_server_version env base (JStr server_name) (JStr version)
                                           server_data auth_token w))
    = requests_of w ++ [req]
  /\ meth req = PUT
  /\ url req = base +++ "/v0.1/servers/" +++ server_name +++ "/versions/" +++ version
  /\ (7 <= List.length (split_on "/"
            ("/v0.1/servers/" +++ server_name +++ "/versions/" +++ version)))%nat
  /\ (1 < List.length (split_on "/" server_name))%nat
  /\ List.length (split_on "/"
            ("/v0.1/servers/" +++ quote server_name +++ "/versions/" +++ quote version))
       = 6%nat
  /\ List.length (split_on "/" (quote server_name)) = 1%nat
  /\ requests_of (snd (get_server_version (net env) client server_name version w))
       = requests_of w ++ [lookup]
  /\ url lookup = get_server_version_url client server_name version
  /\ get_server_version_url client server_name version
       = Consume.registry_url client +++ lookup_path
  /\ split_on "/" lookup_path
       = [EmptyString; "v0.1"%string; "servers"%string; quote server_name;
          "versions"%string; quote version].
Proof.
  intros req client lookup lookup_path.
  split; [apply update_server_version_sends|].
  split; [reflexivity|]. split; [reflexivity|].
  rewrite !split_on_length, !count_char_append, !quote_no_slash.
  split; [simpl; lia|]. split; [simpl; lia|]. split; [reflexivity|].
  split; [reflexivity|].
  split; [apply get_server_version_sends|].
  split; [reflexivity|].
  split.
  - unfold get_server_version_url, client, new_client, lookup_path.
    cbn [api_base Consume.registry_url]. rewrite !append_assoc. reflexivity.
  - unfold lookup_path.
    change ("/v0.1/servers/" +++ quote server_name +++ "/versions/" +++ quote version)
      with (EmptyString +++ String "/" ("v0.1" +++ String "/" ("servers" +++
              String "/" (quote server_name +++
                String "/" ("versions" +++ String "/" (quote version)))))).
    rewrite split_on_first by reflexivity.
    rewrite split_on_first by reflexivity.
    rewrite split_on_first by reflexivity.
    rewrite split_on_first by apply quote_no_slash.
    rewrite split_on_first by reflexivity.
    rewrite split_on_none by apply quote_no_slash.
    reflexivity.
Qed.

(** C10, at a concrete name: [ns/srv]. *)
Lemma update_endpoint_is_not_encoded_witness :
  (0 < count_char "/" "ns/srv")%nat
  /\ url (update_request (Scenarios.mock_env true true 200)
                         "http://localhost:8080" (JStr "ns/srv") (JStr "1.0.0")
                         JNull JNull)
     = "http://localhost:8080/v0.1/servers/ns/srv/versions/1.0.0"%string.
Proof.
  split; [simpl; lia|].
  apply (update_endpoint_is_not_encoded (Scenarios.mock_env true true 200)
           "http://localhost:8080" "ns/srv" "1.0.0" JNull JNull []).
  simpl; lia.
Defined.

(** ** The discovery examples *)

Lemma is_client_or_server_error (status : Z) :
  400 <= status < 600 -> (400 <=? status) && (status <? 600) = true.
Proof. intros H. apply andb_true_iff. split; [apply Z.leb_le | apply Z.ltb_lt]; lia. Qed.



(** ** Pagination *)

Import Pagination.

Lemma page_of_inv (o : Outcome) (items : list json) (next : json) :
  page_of o = Some (items, next) ->
  exists status body,
    o = Responded (mkResponse status (Some (JObj body)))
    /\ (400 <=? status) && (status <? 600) = false
    /\ match assoc "servers" body with Some x => x | None => JArr [] end = JArr items
    /\ match assoc "nextCursor" body with Some c => c | None => JNull end = next.
Proof.
  destruct o as [[status [[| | | | |body]|]]|e]; simpl; try discriminate;
    destruct (_ && _) eqn:Hs; try discriminate.
  destruct (match assoc "servers" body with Some x => x | None => JArr [] end)
    as [| | | |l|] eqn:Hservers; try discriminate.
  intros H. injection H as <- <-.
  exists status, body. auto.
Qed.

Lemma page_requests_length (client : MCPRegistryClient) (pages : list (list json * json)) :
  forall cursor, List.length (page_requests client cursor pages) = List.length pages.
Proof.
  induction pages as [|[items next] rest IH]; intros cursor; simpl;
    [reflexivity | now rewrite IH].
Qed.

(** One turn of the loop on a page. *)
Lemma example_4_loop_step (net : Net) (client : MCPRegistryClient) (fuel : nat)
  (acc items : list json) (cursor next : json) (page : Z) (w : World) :
  page_of (net (requests_of w) (page_request client cursor)) = Some (items, next) ->
  exists w1,
    requests_of w1 = requests_of w ++ [page_request client cursor]
    /\ example_4_loop net (S fuel) client acc cursor page w
       = if negb (truthy next) then (Ok (acc ++ items), w1)
         else example_4_loop net fuel client (acc ++ items) next (page + 1) w1.
Proof.
  intros Hpage.
  destruct (page_of_inv _ _ _ Hpage) as [status [body [Hnet [Hs [Hitems Hnext]]]]].
  eexists (w ++ [Sent (page_request client cursor); Print _]).
  split; [now trace_simpl|].
  simpl. unfold list_servers, bind at 1 2, send.
  fold (page_request client cursor). rewrite Hnet.
  unfold bind at 1, raise_for_status; simpl. rewrite Hs.
  unfold bind, ret, response_json, dict_get; simpl.
  rewrite Hitems, Hnext; simpl.
  unfold print, emit. rewrite <- app_assoc; simpl.
  destruct (negb (truthy next)); reflexivity.
Qed.

Lemma example_4_loop_pages (net : Net) (client : MCPRegistryClient)
  (pages : list (list json * json)) :
  forall (fuel : nat) (acc : list json) (cursor : json) (page : Z) (w : World),
    serves_pages net client (requests_of w) cursor pages ->
    (List.length pages <= fuel)%nat ->
    exists w',
      example_4_loop net fuel client acc cursor page w
        = (Ok (acc ++ List.concat (map fst pages)), w')
      /\ requests_of w' = requests_of w ++ page_requests client cursor pages.
Proof.
  induction pages as [|[items next] rest IH]; intros fuel acc cursor page w Hserves Hfuel;
    [destruct Hserves|].
  destruct fuel as [|fuel]; [simpl in Hfuel; lia|].
  destruct Hserves as [Hpage Hrest].
  destruct (example_4_loop_step net client fuel acc items cursor next page w Hpage)
    as [w1 [Hw1 Hstep]].
  rewrite Hstep.
  destruct rest as [|p rest].
  - rewrite Hrest; simpl. exists w1. now rewrite app_nil_r.
  - destruct Hrest as [Hnext Hrest]. rewrite Hnext; simpl negb; cbv iota.
    rewrite <- Hw1 in Hrest.
    destruct (IH fuel (acc ++ items) next (page + 1) w1 Hrest) as [w' [Hrun Hreqs]];
      [simpl in *; lia|].
    exists w'. split.
    + rewrite Hrun. simpl. now rewrite <- app_assoc.
    + rewrite Hreqs, Hw1, <- app_assoc. reflexivity.
Qed.

(** Printing the catalog after the loop sends nothing. *)
Lemma example_4_listing_quiet (all_servers : list json) :
  quiet (print [Lit nl; Lit "Servers:"] ;;
         for_each all_servers (fun server_data =>
           server <- dict_get server_data "server" (JObj []) ;;
           name <- dict_get server "name" JNull ;;
           version <- dict_get server "version" JNull ;;
           print [Lit "  • "; Val name; Lit " v"; Val version]))%run.
Proof. unfold quiet. sends_steps. Qed.

Lemma quiet_sends_nothing {A : Type} (c : M A) (w : World) :
  quiet c ->
  exists r evs, c w = (r, w ++ evs) /\ requests_of evs = [] /\ r <> Diverge.
Proof.
  intros Hc. destruct (Hc w) as [r [evs [Hrun [Hevs Hr]]]].
  exists r, evs. repeat split; auto.
  destruct (requests_of evs) as [|q l]; [reflexivity|]. inversion Hevs; tauto.
Qed.

(** C9: on a registry that serves its catalog as the pages [pages], the
    last one alone without a continuation cursor, the loop of example 4
    comes back once the fuel covers the number of pages; it has then sent
    exactly one listing request per page, each carrying the cursor of the
    page before, and the list it has accumulated is the concatenation of the
    pages' items in order.  Example 4 as a whole sends these requests and no
    other, does not diverge, and prints the length of that list as total. *)
Theorem pagination_terminates_with_full_catalog (net : Net)
  (client : MCPRegistryClient) (pages : list (list json * json)) (fuel : nat)
  (w : World)
  (Hserves : serves_pages net client (requests_of w) JNull pages)
  (Hfuel : (List.length pages <= fuel)%nat) :
  let catalog := List.concat (map fst pages) in
  let calls := page_requests client JNull pages in
  (exists w',
      example_4_loop net fuel client [] JNull 1 w = (Ok catalog, w')
      /\ requests_of w' = requests_of w ++ calls)
  /\ List.length calls = List.length pages
  /\ fst (example_4_list_all_servers net fuel client w) <> Diverge
  /\ requests_of (snd (example_4_list_all_servers net fuel client w))
     = requests_of w ++ calls
  /\ In (Print [Lit nl; Lit "✓ Total servers in registry: ";
                Val (JNum (Z.of_nat (List.length catalog)))])
        (snd (example_4_list_all_servers net fuel client w)).
Proof.
  intros catalog calls.
  split; [apply (example_4_loop_pages net client pages fuel [] JNull 1 w Hserves Hfuel)|].
  split; [apply page_requests_length|].
  unfold example_4_list_all_servers, banner.
  repeat (rewrite bind_assoc || rewrite bind_print).
  set (w0 := ((w ++ _) ++ _) ++ _).
  assert (Hw0 : requests_of w0 = requests_of w) by (unfold w0; now trace_simpl).
  rewrite <- Hw0 in Hserves.
  destruct (example_4_loop_pages net client pages fuel [] JNull 1 w0 Hserves Hfuel)
    as [w' [Hrun Hreqs]].
  rewrite (bind_ok _ _ _ _ _ Hrun), bind_print. simpl app.
  destruct (quiet_sends_nothing _ (w' ++ [Print [Lit nl; Lit "✓ Total servers in registry: ";
                Val (JNum (Z.of_nat (List.length (List.concat (map fst pages)))))]])
              (example_4_listing_quiet (List.concat (map fst pages))))
    as [r [evs [Hrest [Hnone Hr]]]].
  rewrite Hrest. simpl fst; simpl snd.
  split; [exact Hr|]. split.
  - trace_simpl. now rewrite Hnone, app_nil_r, Hreqs, Hw0.
  - apply in_or_app. left. apply in_or_app. right. left. reflexivity.
Qed.

(** C9, on a catalog of two pages. *)
Lemma pagination_terminates_with_full_catalog_witness :
  serves_pages Scenarios.two_page_registry Scenarios.local_client [] JNull
               Scenarios.two_pages
  /\ exists w',
       example_4_loop Scenarios.two_page_registry 2 Scenarios.local_client [] JNull 1 []
       = (Ok [Scenarios.item "a/one"; Scenarios.item "a/two"; Scenarios.item "b/three"], w')
       /\ List.length (requests_of w') = 2%nat.
Proof.
  assert (H : serves_pages Scenarios.two_page_registry Scenarios.local_client
                           (requests_of []) JNull Scenarios.two_pages)
    by (simpl; repeat split; reflexivity).
  split; [exact H|].
  destruct (pagination_terminates_with_full_catalog Scenarios.two_page_registry
              Scenarios.local_client Scenarios.two_pages 2 [] H ltac:(simpl; lia))
    as [[w' [Hrun Hreqs]] _].
  exists w'. split; [exact Hrun|]. rewrite Hreqs. reflexivity.
Defined.

(** ** The driver of the discovery examples *)

Lemma run_examples_sequence (net : Net) (fuel : nat) (client : MCPRegistryClient)
  (server_name : string) (w : World) :
  run_examples net fuel client server_name w
  = bind (sequence (examples net fuel client server_name))
         (fun _ =>
            print [Lit nl; Lit rule] ;;
            print [Lit "✓ All examples completed successfully!"] ;;
            print [Lit rule] ;;
            print [Lit nl; Lit "Next Steps:"] ;;
            print [Lit "  • Use these patterns in your MCP client or subregistry"] ;;
            print [Lit "  • Add caching to handle registry downtime"] ;;
            print [Lit "  • Implement error handling for production use"] ;;
            print [Lit "  • See API docs: http://localhost:8080/docs"])%run w.
Proof.
  unfold run_examples, examples, sequence.
  unfold bind.
  repeat match goal with
         | |- context [match ?c ?w with (_, _) => _ end] =>
             destruct (c w) as [[[]|?|] ?]; try reflexivity
         end.
Qed.

(** A failure in the middle of a sequence ends the sequence there. *)
Lemma sequence_raise (pre post : list (M unit)) (ex : M unit) (e : exn)
  (w w1 w2 : World) :
  sequence pre w = (Ok tt, w1) -> ex w1 = (Raise e, w2) ->
  sequence (pre ++ ex :: post) w = (Raise e, w2).
Proof.
  revert w. induction pre as [|c pre IH]; simpl; intros w Hpre Hex.
  - unfold ret in Hpre. injection Hpre as <-. now apply bind_raise.
  - unfold bind in *. destruct (c w) as [[[]|e'|] w']; try discriminate.
    now apply IH.
Qed.

(** C4, as the code has it: once the registry has answered the health check,
    if the examples before some example return and that example raises an
    exception of class [Exception] (a non-404 HTTP failure, say), [main]
    catches it at its outermost [try], prints it with a traceback and returns
    normally.  The trace ends with what the failing example did, followed by
    that report: none of the examples after it runs, and the closing messages
    are not printed. *)
Theorem failure_in_an_example_ends_the_examples (net : Net) (fuel : nat)
  (w w1 w2 : World) (r : Response) (pre post : list (M unit)) (ex : M unit) (e : exn)
  (Hhealth : net (requests_of w) (health_request local_registry) = Responded r)
  (Hsplit : examples net fuel (new_client local_registry) example_server
            = pre ++ ex :: post)
  (Hpre : sequence pre (w ++ opening ++ [Sent (health_request local_registry);
                                          Print [Lit "✓ Registry is accessible"]])
          = (Ok tt, w1))
  (Hex : ex w1 = (Raise e, w2))
  (Hclass : is_Exception e = true) :
  Consume.main net fuel w
  = (Ok tt, w2 ++ [Print [Lit nl; Lit "❌ Error: "; Err e]; Traceback e]).
Proof.
  unfold Consume.main.
  repeat rewrite bind_print.
  unfold bind at 1, try_except at 1, bind at 1, send.
  rewrite !requests_of_print, Hhealth.
  rewrite bind_print. unfold ret at 1. cbv iota beta.
  unfold try_except.
  rewrite run_examples_sequence, Hsplit.
  match goal with
  | |- context [bind (sequence (pre ++ ex :: post)) _ ?w0] =>
      replace w0 with (w ++ opening ++ [Sent (health_request local_registry);
                                         Print [Lit "✓ Registry is accessible"]])
        by (unfold opening; rewrite <- !app_assoc; reflexivity)
  end.
  rewrite (bind_raise _ _ _ _ _ (sequence_raise pre post ex e _ w1 w2 Hpre Hex)).
  rewrite Hclass.
  unfold report_error, bind, print, emit. rewrite <- app_assoc. reflexivity.
Qed.

(** C4, on a registry that answers 500 to the lookup of example 2: example 1
    has run, example 2 has failed, and [main] has returned normally after
    three requests. *)
Lemma failure_in_an_example_ends_the_examples_witness :
  fst (Consume.main Scenarios.failing_lookup_registry 5 []) = Ok tt
  /\ requests_of (snd (Consume.main Scenarios.failing_lookup_registry 5 []))
     = [health_request local_registry;
        list_servers_request Scenarios.local_client (JStr "math") "latest" 10 JNull;
        get_server_version_request Scenarios.local_client Scenarios.math_server "latest"].
Proof.
  set (net := Scenarios.failing_lookup_registry).
  pose (client := new_client local_registry).
  pose (w0 := [] ++ opening ++ [Sent (health_request local_registry);
                                 Print [Lit "✓ Registry is accessible"]]).
  pose (pre := [example_1_search_servers net client]).
  pose (ex := example_2_get_specific_server net client example_server).
  pose (post := [example_3_list_versions net client example_server;
                 example_4_list_all_servers net 5 client;
                 example_5_installation_info net client example_server]).
  pose (w1 := snd (sequence pre w0)).
  pose (w2 := snd (ex w1)).
  rewrite (failure_in_an_example_ends_the_examples net 5 [] w1 w2
             (mkResponse 200 (Some (JObj []))) pre post ex (HTTPError 500)
             eq_refl eq_refl eq_refl eq_refl eq_refl).
  split; reflexivity.
Defined.

(** C4, the claim as stated fails: on that registry the non-404 failure of
    example 2 is the last thing that happens before the error report.  The
    run sends three requests only, and the sibling examples 3, 4 and 5 never
    start: their banners are not printed. *)
Lemma siblings_after_a_failure_do_not_run :
  let w := snd (Consume.main Scenarios.failing_lookup_registry 5 []) in
  requests_of w
    = [health_request local_registry;
       list_servers_request Scenarios.local_client (JStr "math") "latest" 10 JNull;
       get_server_version_request Scenarios.local_client Scenarios.math_server "latest"]
  /\ In (Print [Lit "EXAMPLE 2: Get Server Details"]) w
  /\ ~ In (Print [Lit "EXAMPLE 3: List All Versions"]) w
  /\ ~ In (Print [Lit "EXAMPLE 4: List All Servers (with pagination)"]) w
  /\ ~ In (Print [Lit "EXAMPLE 5: How to Use This Server"]) w
  /\ last w (Print []) = Traceback (HTTPError 500).
Proof.
  cbv zeta.
  set (w := snd (Consume.main Scenarios.failing_lookup_registry 5 [])).
  vm_compute in w. subst w.
  split; [reflexivity|].
  split; [simpl; tauto|].
  repeat split; try reflexivity;
    intros H; simpl in H;
    repeat (destruct H as [H|H]; [discriminate H|]); exact H.
Qed.

(** ** The publish script *)

Lemma sends_only_send_left (P Q : Request -> Prop) (net : Net) (req : Request) :
  P req -> sends_only (fun q => P q \/ Q q) (send net req).
Proof. intros H. apply sends_only_send. now left. Qed.

Lemma sends_only_send_right (P Q : Request -> Prop) (net : Net) (req : Request) :
  Q req -> sends_only (fun q => P q \/ Q q) (send net req).
Proof. intros H. apply sends_only_send. now right. Qed.

Lemma sends_exactly_after_print {A : Type} (l : list Request) (x : Line) (c : M A) :
  sends_exactly l c -> sends_exactly l (print x ;; c)%run.
Proof.
  intros Hc w. rewrite bind_print.
  destruct (Hc (w ++ [Print x])) as [r [evs [-> [Hevs Hr]]]].
  exists r, (Print x :: evs). rewrite <- app_assoc. auto.
Qed.

Lemma sends_exactly_send_then_quiet {A : Type} (net : Net) (req : Request)
  (k : Response -> M A) :
  (forall response, quiet (k response)) ->
  sends_exactly [req] (bind (send net req) k).
Proof.
  intros Hk w. unfold bind, send.
  destruct (net (requests_of w) req) as [response|e].
  - destruct (quiet_sends_nothing _ (w ++ [Sent req]) (Hk response))
      as [r [evs [-> [Hevs Hr]]]].
    exists r, (Sent req :: evs). rewrite <- app_assoc. simpl.
    rewrite Hevs. auto.
  - exists (Raise e), [Sent req]. repeat split. discriminate.
Qed.

Section PublishFacts.
Variable env : Env.

Lemma prepare_sends (c : Config) :
  sends_only (fun q => meth q = GET \/ q = auth_request (registry_url c))
             (prepare env c).
Proof.
  unfold prepare, print_configuration, validate_server_json,
    show_server_information, check_connectivity, acquire_token,
    get_auth_token_none.
  repeat first
    [ apply sends_only_send_left; reflexivity
    | apply sends_only_send_right; reflexivity
    | progress sends_steps ].
Qed.

Lemma submit_sends_one (c : Config) (r : Ready) :
  sends_exactly [submission_request env c r] (submit env c r).
Proof.
  unfold submit, submission_request.
  destruct (update_mode c);
    repeat apply sends_exactly_after_print;
    [unfold update_server_version | unfold publish_server];
    repeat apply sends_exactly_after_print;
    apply sends_exactly_send_then_quiet; intros response;
    unfold quiet; sends_steps.
Qed.

Lemma display_and_verify_sends (c : Config) (r : Ready) (result : json) :
  sends_only (fun q => meth q = GET) (display_and_verify env c r result).
Proof.
  unfold display_and_verify, get_server_info.
  repeat first
    [ apply sends_only_send; reflexivity
    | progress sends_steps ].
Qed.
End PublishFacts.

(** C1: in every run of [main], whatever is sent before the submission step
    is a GET or the token request to [/v0.1/auth/none].  If those steps
    fail, the run ends there and nothing is submitted.  If they succeed, the
    run sends exactly one request next: in update mode a PUT to
    [/v0.1/servers/{name}/versions/{version}], otherwise a POST to
    [/v0.1/publish]; and every request after it is a GET. *)
Theorem publish_mode_selects_the_submission (env : Env) (w : World) :
  let c := resolve_config env in
  (exists evs,
     snd (prepare env c w) = w ++ evs
     /\ Forall (fun q => meth q = GET \/ q = auth_request (registry_url c))
               (requests_of evs))
  /\ match prepare env c w with
     | (Ok r, w1) =>
         let req := submission_request env c r in
         (if update_mode c
          then meth req = PUT
               /\ url req = registry_url c +++ "/v0.1/servers/"
                            +++ py_str env (server_name r) +++ "/versions/"
                            +++ py_str env (server_version r)
          else meth req = POST
               /\ url req = registry_url c +++ "/v0.1/publish")
         /\ exists tail,
              requests_of (snd (Publish.main env w)) = requests_of w1 ++ req :: tail
              /\ Forall (fun q => meth q = GET) tail
     | (_, w1) => snd (Publish.main env w) = w1
     end.
Proof.
  intros c. split.
  - destruct (prepare_sends env c w) as [r [evs [Hrun [Hevs _]]]].
    exists evs. now rewrite Hrun.
  - unfold Publish.main. fold c.
    destruct (prepare env c w) as [[r|e|] w1] eqn:Hprep;
      [|unfold bind; now rewrite Hprep..].
    rewrite (bind_ok _ _ _ _ _ Hprep).
    split.
    + unfold submission_request. destruct (update_mode c); split; reflexivity.
    + unfold bind.
      destruct (submit_sends_one env c r w1) as [res [evs [-> [Hevs Hres]]]].
      destruct res as [result|e|]; [|exists []|congruence].
      * destruct (display_and_verify_sends env c r result (w1 ++ evs))
          as [res' [evs' [-> [Hevs' _]]]].
        exists (requests_of evs'). split; [|exact Hevs'].
        simpl. rewrite !requests_of_app, Hevs, <- app_assoc. reflexivity.
      * split; [|constructor]. simpl. now rewrite requests_of_app, Hevs.
Qed.

(** The scenario of a publish run on the mock registry answering 201: the
    schema is fetched, the registry is probed, a token is obtained, the
    descriptor is POSTed once to [/v0.1/publish], the listing is queried,
    and the exit status is 0. *)
Example publish_run :
  let env := Scenarios.mock_env false true 201 in
  fst (script env []) = Some 0
  /\ map (fun q => (meth q, url q)) (requests_of (snd (script env [])))
     = [(GET, schema_url);
        (GET, "http://localhost:8080/v0.1/servers"%string);
        (POST, "http://localhost:8080/v0.1/auth/none"%string);
        (POST, "http://localhost:8080/v0.1/publish"%string);
        (GET, "http://localhost:8080/v0.1/servers"%string)]
  /\ body (submission_request env (resolve_config env)
             (mkReady Scenarios.descriptor (JStr "ns/srv") (JStr "1.0.0") (JStr "token")))
     = Some Scenarios.descriptor.
Proof. vm_compute. repeat split. Qed.

(** The same run in update mode, the registry answering 200. *)
Example update_run :
  let env := Scenarios.mock_env true true 200 in
  fst (script env []) = Some 0
  /\ map (fun q => (meth q, url q)) (requests_of (snd (script env [])))
     = [(GET, schema_url);
        (GET, "http://localhost:8080/v0.1/servers"%string);
        (POST, "http://localhost:8080/v0.1/auth/none"%string);
        (PUT, "http://localhost:8080/v0.1/servers/ns/srv/versions/1.0.0"%string);
        (GET, "http://localhost:8080/v0.1/servers"%string)].
Proof. vm_compute. repeat split. Qed.

Lemma validate_server_json_rejects (env : Env) (path : string) (w : World)
  (d s : json) (status : Z) (e : exn) :
  load_json env path = inl d ->
  net env (requests_of w) schema_request = Responded (mkResponse status (Some s)) ->
  ~ 400 <= status < 600 ->
  validate env d s = Some e ->
  validate_server_json env path w
  = (Raise e, w ++ [Print [Lit "Validating server.json..."]; Sent schema_request]).
Proof.
  intros Hload Hschema Hstatus Hinvalid.
  assert (Hs : (400 <=? status) && (status <? 600) = false).
  { apply andb_false_iff.
    destruct (Z.leb_spec 400 status); [right|now left].
    apply Z.ltb_ge. lia. }
  unfold validate_server_json. rewrite bind_print, Hload.
  unfold bind, ret, send. rewrite requests_of_print, Hschema.
  unfold raise_for_status, response_json; simpl. rewrite Hs; simpl.
  rewrite Hinvalid. unfold raise. rewrite <- app_assoc. reflexivity.
Qed.

(** C2: when the descriptor loads, the schema is fetched, and the schema
    engine rejects the descriptor, the script exits with status 1 and the
    only request of the run is the GET of the schema: no POST and no PUT is
    sent. *)
Theorem validation_failure_submits_nothing (env : Env) (w : World)
  (d s : json) (status : Z) (e : exn)
  (Hload : load_json env (server_json_path (resolve_config env)) = inl d)
  (Hschema : net env (requests_of w) schema_request
             = Responded (mkResponse status (Some s)))
  (Hstatus : ~ 400 <= status < 600)
  (Hinvalid : validate env d s = Some e) :
  fst (script env w) = Some 1
  /\ fst (Publish.main env w) = Raise e
  /\ requests_of (snd (script env w)) = requests_of w ++ [schema_request]
  /\ meth schema_request = GET.
Proof.
  assert (Hmain : exists w', Publish.main env w = (Raise e, w')
                             /\ requests_of w' = requests_of w ++ [schema_request]).
  { unfold Publish.main, prepare, print_configuration.
    repeat (rewrite bind_assoc || rewrite bind_print).
    match goal with
    | |- context [bind (validate_server_json env _) _ ?w0] => set (start := w0)
    end.
    assert (Hstart : requests_of start = requests_of w)
      by (unfold start; now trace_simpl).
    rewrite <- Hstart in Hschema.
    rewrite (bind_raise _ _ _ _ _
               (validate_server_json_rejects env _ start d s status e
                  Hload Hschema Hstatus Hinvalid)).
    eexists. split; [reflexivity|]. rewrite requests_of_app, Hstart. reflexivity. }
  destruct Hmain as [w' [Hmain Hreqs]].
  unfold script. rewrite Hmain.
  split; [destruct e; reflexivity|].
  split; [reflexivity|].
  split.
  - destruct e; simpl; rewrite requests_of_app; simpl; rewrite app_nil_r; exact Hreqs.
  - reflexivity.
Qed.

(** C2, on the mock registry with a schema engine that rejects the
    descriptor. *)
Lemma validation_failure_submits_nothing_witness :
  fst (script (Scenarios.mock_env false false 201) []) = Some 1
  /\ requests_of (snd (script (Scenarios.mock_env false false 201) []))
     = [schema_request].
Proof.
  destruct (validation_failure_submits_nothing (Scenarios.mock_env false false 201) []
              Scenarios.descriptor (JObj []) 200 ValidationError
              eq_refl eq_refl ltac:(lia) eq_refl)
    as [Hexit [_ [Hreqs _]]].
  split; [exact Hexit | exact Hreqs].
Defined.

(** ** The status test of the submission step *)

(** X23: with an error status (4xx or 5xx) and a JSON body,
    [publish_server] prints the body after the error line and raises the
    [HTTPError]. *)
Lemma publish_server_error_status (env : Env) (base : string)
  (server_data auth_token : json) (w : World) (status : Z) (details : json) :
  let req := publish_request base server_data auth_token in
  net env (requests_of w) req = Responded (mkResponse status (Some details)) ->
  400 <= status < 600 ->
  publish_server env base server_data auth_token w
  = (Raise (HTTPError status),
     w ++ [Print [Lit "Publishing to: "; Lit base; Lit "/v0.1/publish"];
           Sent req;
           Print [Lit "Response Status: "; Val (JNum status)];
           Print [Lit "ERROR: Publishing failed with status "; Val (JNum status)];
           Print [Lit "Error details:"];
           Print [Dump details]]).
Proof.
  intros req Hnet Hstatus.
  unfold publish_server, bind, print, emit, send, when, response_json,
    raise_for_status, ret, raise.
  fold req. rewrite requests_of_print, Hnet.
  cbv beta iota. cbn [status_code json_body].
  replace ((status =? 200) || (status =? 201)) with false
    by (symmetry; apply orb_false_iff; split; apply Z.eqb_neq; lia).
  rewrite (is_client_or_server_error status Hstatus).
  simpl. rewrite <- !app_assoc. reflexivity.
Qed.

(** X24: with status 200 or 201 and a JSON body, [publish_server] returns
    the body without an error line. *)
Lemma publish_server_success_status (env : Env) (base : string)
  (server_data auth_token : json) (w : World) (status : Z) (result : json) :
  let req := publish_request base server_data auth_token in
  net env (requests_of w) req = Responded (mkResponse status (Some result)) ->
  status = 200 \/ status = 201 ->
  publish_server env base server_data auth_token w
  = (Ok result,
     w ++ [Print [Lit "Publishing to: "; Lit base; Lit "/v0.1/publish"];
           Sent req;
           Print [Lit "Response Status: "; Val (JNum status)];
           Print [Lit "[OK] Successfully published!"]]).
Proof.
  intros req Hnet Hstatus.
  unfold publish_server, bind, print, emit, send, when, response_json,
    raise_for_status, ret, raise.
  fold req. rewrite requests_of_print, Hnet.
  cbv beta iota. cbn [status_code json_body].
  replace ((status =? 200) || (status =? 201)) with true
    by (symmetry; apply orb_true_iff; destruct Hstatus as [-> | ->]; auto).
  simpl. rewrite <- !app_assoc. reflexivity.
Qed.

(** X25: with an error status and a JSON body, [update_server_version]
    prints the body after the error line and raises the [HTTPError]. *)
Lemma update_server_version_error_status (env : Env) (base : string)
  (server_name version server_data auth_token : json) (w : World) (status : Z)
  (details : json) :
  let req := update_request env base server_name version server_data auth_token in
  net env (requests_of w) req = Responded (mkResponse status (Some details)) ->
  400 <= status < 600 ->
  update_server_version env base server_name version server_data auth_token w
  = (Raise (HTTPError status),
     w ++ [Print [Lit "Updating: "; Lit (update_endpoint env base server_name version)];
           Sent req;
           Print [Lit "Response Status: "; Val (JNum status)];
           Print [Lit "ERROR: Update failed with status "; Val (JNum status)];
           Print [Lit "Error details:"];
           Print [Dump details]]).
Proof.
  intros req Hnet Hstatus.
  unfold update_server_version, bind, print, emit, send, when, response_json,
    raise_for_status, ret, raise.
  fold req. rewrite requests_of_print, Hnet.
  cbv beta iota. cbn [status_code json_body].
  replace (status =? 200) with false by (symmetry; apply Z.eqb_neq; lia).
  rewrite (is_client_or_server_error status Hstatus).
  simpl. rewrite <- !app_assoc. reflexivity.
Qed.

(** C7, where the code departs from it: a status that is neither a success
    status nor an error status.  The PUT answered with 201 and a JSON body
    makes [update_server_version] print its error line and the body, and then
    its success line; it returns the body, and the script goes on to exit
    with status 0.  The POST answered with 202 does the same in
    [publish_server]. *)
Theorem submission_status_outside_4xx_5xx_is_not_raised :
  let env := Scenarios.mock_env true true 201 in
  let req := update_request env "http://localhost:8080" (JStr "ns/srv") (JStr "1.0.0")
                            Scenarios.descriptor (JStr "token") in
  update_server_version env "http://localhost:8080" (JStr "ns/srv") (JStr "1.0.0")
                        Scenarios.descriptor (JStr "token") []
  = (Ok (JObj []),
     [Print [Lit "Updating: ";
             Lit "http://localhost:8080/v0.1/servers/ns/srv/versions/1.0.0"];
      Sent req;
      Print [Lit "Response Status: "; Val (JNum 201)];
      Print [Lit "ERROR: Update failed with status "; Val (JNum 201)];
      Print [Lit "Error details:"];
      Print [Dump (JObj [])];
      Print [Lit "[OK] Successfully updated!"]])
  /\ fst (script env []) = Some 0
  /\ (let env' := Scenarios.mock_env false true 202 in
      fst (publish_server env' "http://localhost:8080" Scenarios.descriptor
                          (JStr "token") []) = Ok (JObj [])
      /\ In (Print [Lit "ERROR: Publishing failed with status "; Val (JNum 202)])
            (snd (script env' []))
      /\ In (Print [Lit "[OK] Successfully published!"]) (snd (script env' []))
      /\ fst (script env' []) = Some 0).
Proof.
  cbv zeta. split; [reflexivity|]. split; [reflexivity|].
  split; [reflexivity|].
  set (w := snd (script _ _)). vm_compute in w. subst w.
  split; [simpl; tauto|]. split; [simpl; tauto|]. reflexivity.
Qed.

(** * Further properties of the two scripts *)

Import Coverage.

(** ** The client's base URL *)

Lemma rstrip_slash_append_slash (s : string) :
  rstrip_slash (s +++ "/") = rstrip_slash s.
Proof.
  induction s as [|c s IH]; simpl; [reflexivity|].
  now rewrite IH.
Qed.

Lemma rstrip_slash_append_slashes (s : string) (n : nat) :
  rstrip_slash (s +++ repeat_string "/" n) = rstrip_slash s.
Proof.
  revert s. induction n as [|n IH]; intros s; simpl.
  - f_equal. induction s as [|c s IHs]; simpl; [reflexivity | now rewrite IHs].
  - change (String "/" (repeat_string "/" n)) with ("/" +++ repeat_string "/" n).
    rewrite <- append_assoc, IH. apply rstrip_slash_append_slash.
Qed.

Lemma append_slash_not_empty (t : string) : t +++ "/" <> EmptyString.
Proof. destruct t; discriminate. Qed.

Lemma rstrip_slash_no_trailing_slash (s t : string) : rstrip_slash s <> t +++ "/".
Proof.
  revert t. induction s as [|c s IH]; intros t; simpl.
  - intros H. symmetry in H. now apply append_slash_not_empty in H.
  - destruct (rstrip_slash s) as [|d r] eqn:Hs.
    + destruct (Ascii.eqb_spec c "/") as [->|Hc].
      * intros H. symmetry in H. now apply append_slash_not_empty in H.
      * destruct t as [|x [|y t]]; simpl; intros H; inversion H; congruence.
    + destruct t as [|x t]; simpl; intros H; [discriminate|].
      injection H as _ H. now apply (IH t).
Qed.

Lemma rstrip_slash_decompose (s : string) :
  exists n, s = rstrip_slash s +++ repeat_string "/" n.
Proof.
  induction s as [|c s [n IH]]; simpl.
  - now exists O.
  - destruct (rstrip_slash s) as [|d r] eqn:Hs.
    + simpl in IH. destruct (Ascii.eqb_spec c "/") as [->|Hc].
      * exists (S n). simpl. now rewrite <- IH.
      * exists n. simpl. now rewrite <- IH.
    + exists n. simpl. simpl in IH. now rewrite <- IH.
Qed.

(** X1: [MCPRegistryClient(url)] drops every trailing slash of [url] and
    nothing else: the stored registry URL never ends with a slash, the given
    URL is the stored one followed by slashes only, any number of slashes
    added to the URL gives the same client, and the API base is the stored
    URL followed by [/v0.1]. *)
Theorem new_client_drops_trailing_slashes (url : string) (n : nat) :
  new_client (url +++ repeat_string "/" n) = new_client url
  /\ (forall t, Consume.registry_url (new_client url) <> t +++ "/")
  /\ (exists k, url = Consume.registry_url (new_client url) +++ repeat_string "/" k)
  /\ api_base (new_client url) = Consume.registry_url (new_client url) +++ "/v0.1".
Proof.
  unfold new_client; simpl.
  split; [now rewrite rstrip_slash_append_slashes|].
  split; [intros t; apply rstrip_slash_no_trailing_slash|].
  split; [apply rstrip_slash_decompose | reflexivity].
Qed.

(** ** Paths built by the client and by the publisher *)

Lemma append_inj_l (a x y : string) : a +++ x = a +++ y -> x = y.
Proof.
  induction a as [|c a IH]; simpl; intros H; [exact H|].
  injection H as H. now apply IH.
Qed.

Lemma lookup_path_segments (name version : string) :
  split_on "/" ("/servers/" +++ quote name +++ "/versions/" +++ quote version)
  = [EmptyString; "servers"%string; quote name; "versions"%string; quote version].
Proof.
  change ("/servers/" +++ quote name +++ "/versions/" +++ quote version)
    with (EmptyString +++ String "/" ("servers" +++
            String "/" (quote name +++
              String "/" ("versions" +++ String "/" (quote version))))).
  rewrite split_on_first by reflexivity.
  rewrite split_on_first by reflexivity.
  rewrite split_on_first by apply quote_no_slash.
  rewrite split_on_first by reflexivity.
  rewrite split_on_none by apply quote_no_slash.
  reflexivity.
Qed.

(** X2: for a given client, [get_server_version] never sends two different
    (name, version) pairs to the same URL. *)
Theorem get_server_version_url_injective (self : MCPRegistryClient)
  (name version name' version' : string) :
  get_server_version_url self name version
    = get_server_version_url self name' version' ->
  name = name' /\ version = version'.
Proof.
  unfold get_server_version_url. intros H.
  apply append_inj_l in H.
  apply (f_equal (split_on "/")) in H.
  rewrite !lookup_path_segments in H.
  injection H as Hn Hv.
  apply (f_equal unquote) in Hn, Hv.
  rewrite !unquote_quote in Hn, Hv. auto.
Qed.

(** X2, at a concrete pair of URLs. *)
Lemma get_server_version_url_injective_witness :
  "ns/srv"%string = "ns/srv"%string /\ "1.0.0"%string = "1.0.0"%string.
Proof.
  apply (get_server_version_url_injective Scenarios.local_client
           "ns/srv" "1.0.0" "ns/srv" "1.0.0").
  reflexivity.
Defined.

Lemma string_length_append (a b : string) :
  String.length (a +++ b) = (String.length a + String.length b)%nat.
Proof. induction a as [|c a IH]; simpl; [reflexivity | now rewrite IH]. Qed.

(** X3: the update endpoint of the publisher does not tell names from
    versions: a name ending in [/versions/x] with version [y] and the name
    without that ending with version [x/versions/y] are different pairs with
    the same PUT URL. *)
Theorem update_endpoint_collides (env : Env) (base a x y : string) :
  update_endpoint env base (JStr (a +++ "/versions/" +++ x)) (JStr y)
    = update_endpoint env base (JStr a) (JStr (x +++ "/versions/" +++ y))
  /\ a +++ "/versions/" +++ x <> a.
Proof.
  split.
  - unfold update_endpoint; simpl.
    rewrite !append_assoc. reflexivity.
  - intros H. apply (f_equal String.length) in H.
    rewrite !string_length_append in H. simpl in H. lia.
Qed.

Lemma list_server_versions_sends (net : Net) (self : MCPRegistryClient)
  (server_name : string) (w : World) :
  requests_of (snd (list_server_versions net self server_name w))
    = requests_of w ++ [list_server_versions_request self server_name].
Proof. unfold list_server_versions. run_call. Qed.

(** X4: [list_server_versions] sends one GET whose path, after the API base,
    has exactly the segments [servers], the encoded name and [versions]; the
    URL of [get_server_version] for the same name is that URL followed by a
    slash and the encoded version. *)
Theorem list_server_versions_path (net : Net) (self : MCPRegistryClient)
  (server_name version : string) (w : World) :
  let req := list_server_versions_request self server_name in
  requests_of (snd (list_server_versions net self server_name w))
    = requests_of w ++ [req]
  /\ meth req = GET
  /\ url req = api_base self +++ "/servers/" +++ quote server_name +++ "/versions"
  /\ split_on "/" ("/servers/" +++ quote server_name +++ "/versions")
     = [EmptyString; "servers"%string; quote server_name; "versions"%string]
  /\ get_server_version_url self server_name version
     = url req +++ "/" +++ quote version.
Proof.
  intros req.
  split; [apply list_server_versions_sends|].
  split; [reflexivity|]. split; [reflexivity|].
  split.
  - change ("/servers/" +++ quote server_name +++ "/versions")
      with (EmptyString +++ String "/" ("servers" +++
              String "/" (quote server_name +++ String "/" "versions"))).
    rewrite split_on_first by reflexivity.
    rewrite split_on_first by reflexivity.
    rewrite split_on_first by apply quote_no_slash.
    reflexivity.
  - unfold get_server_version_url, req, list_server_versions_request.
    cbn [url]. rewrite !append_assoc. reflexivity.
Qed.

(** ** Percent-encoding *)

Lemma all_chars_append (p : ascii -> bool) (a b : string) :
  all_chars p (a +++ b) = all_chars p a && all_chars p b.
Proof.
  induction a as [|c a IH]; simpl; [reflexivity|].
  now rewrite IH, andb_assoc.
Qed.

Lemma quote_byte_url_safe (c : ascii) : all_chars url_safe (quote_byte c) = true.
Proof. destruct c as [[] [] [] [] [] [] [] []]; reflexivity. Qed.

Lemma quote_byte_length (c : ascii) :
  (1 <= String.length (quote_byte c) <= 3)%nat.
Proof. unfold quote_byte. destruct (always_safe c); simpl; lia. Qed.

(** X5: [quote(s, safe='')] yields always-safe bytes and [%] only, at most
    three bytes for each byte of [s] and never fewer than [s] has; a string
    of always-safe bytes (letters, digits, [_.-~]) is left as it is. *)
Theorem quote_output_alphabet (s : string) :
  all_chars url_safe (quote s) = true
  /\ (String.length s <= String.length (quote s) <= 3 * String.length s)%nat
  /\ (all_chars always_safe s = true -> quote s = s).
Proof.
  induction s as [|c s [IHsafe [IHlen IHid]]]; simpl.
  - repeat split; auto.
  - split; [now rewrite all_chars_append, quote_byte_url_safe, IHsafe|].
    split.
    + rewrite string_length_append.
      pose proof (quote_byte_length c). lia.
    + intros H. apply andb_true_iff in H as [Hc Hs].
      unfold quote_byte. rewrite Hc. simpl. now rewrite IHid.
Qed.

(** ** The driver of the discovery examples, continued *)

(** X6: when the health check fails with an exception of class [Exception]
    (the registry is down, say), [main] prints the failure and the hint to
    start the registry, and returns normally: the health check is the only
    request, and no example runs. *)
Theorem unreachable_registry_ends_main (net : Net) (fuel : nat) (w : World) (e : exn)
  (Hhealth : net (requests_of w) (health_request local_registry) = Failed e)
  (Hclass : is_Exception e = true) :
  Consume.main net fuel w
  = (Ok tt,
     w ++ opening
       ++ [Sent (health_request local_registry);
           Print [Lit "❌ Cannot connect to registry: "; Err e];
           Print [Lit nl; Lit "Make sure the registry is running:"];
           Print [Lit "  cd registry && make docker-up"]]).
Proof.
  unfold Consume.main.
  repeat rewrite bind_print.
  unfold bind at 1, try_except at 1, bind at 1, send.
  rewrite !requests_of_print, Hhealth, Hclass.
  unfold bind, print, emit, ret, opening. rewrite <- !app_assoc. reflexivity.
Qed.

(** X6, on a registry that refuses every connection. *)
Lemma unreachable_registry_ends_main_witness :
  fst (Consume.main unreachable_registry 5 []) = Ok tt
  /\ requests_of (snd (Consume.main unreachable_registry 5 []))
     = [health_request local_registry].
Proof.
  rewrite (unreachable_registry_ends_main unreachable_registry 5 []
             (TransportError "connection refused") eq_refl eq_refl).
  split; reflexivity.
Defined.

Lemma try_except_lets_no_Exception_out {A : Type} (body : M A) (handler : exn -> M A) :
  (forall e w, exists a w', handler e w = (Ok a, w')) ->
  lets_no_Exception_out (try_except body is_Exception handler).
Proof.
  intros Hh w. unfold try_except.
  destruct (body w) as [[a|e|] w']; simpl; auto.
  destruct (is_Exception e) eqn:He; simpl; auto.
  destruct (Hh e w') as [a [w'' ->]]. exact I.
Qed.

(** X7: no exception of class [Exception] ever leaves [main] of the
    discovery script, whatever the registry answers: it returns normally,
    or runs out of fuel in the pagination loop, or is ended by an exception
    outside that class ([KeyboardInterrupt]). *)
Theorem main_lets_no_Exception_out (net : Net) (fuel : nat) :
  lets_no_Exception_out (Consume.main net fuel).
Proof.
  intros w. unfold Consume.main.
  repeat rewrite bind_print.
  match goal with
  | |- context [bind (try_except ?b is_Exception ?h) ?k ?w0] =>
      pose proof (try_except_lets_no_Exception_out b h) as H1;
      unfold bind at 1;
      assert (Hh : forall e w, exists a w', h e w = (Ok a, w'))
        by (intros e' w'; eexists _, _; reflexivity);
      specialize (H1 Hh w0);
      destruct (try_except b is_Exception h w0) as [[reachable|e|] w1]
  end; simpl in *; auto.
  destruct reachable; [|exact I].
  apply try_except_lets_no_Exception_out.
  intros e w'. eexists _, _. reflexivity.
Qed.

(** ** Listings without a local handler *)



(** ** Pagination without an end *)

(** X9: the pagination loop has no bound of its own.  On a registry whose
    every page names a next page, it never returns: whatever the fuel, the
    loop uses all of it, having sent one listing request per unit of fuel,
    and example 4 does not come back either. *)
Theorem pagination_never_ends_on_endless_catalog (net : Net)
  (client : MCPRegistryClient)
  (Hendless : forall history cursor, exists items next,
      page_of (net history (page_request client cursor)) = Some (items, next)
      /\ truthy next = true) :
  forall (fuel : nat) (all_servers : list json) (cursor : json) (page : Z) (w : World),
    (exists w',
       example_4_loop net fuel client all_servers cursor page w = (Diverge, w')
       /\ List.length (requests_of w') = (List.length (requests_of w) + fuel)%nat)
    /\ fst (example_4_list_all_servers net fuel client w) = Diverge.
Proof.
  assert (Hloop : forall fuel all_servers cursor page w, exists w',
             example_4_loop net fuel client all_servers cursor page w = (Diverge, w')
             /\ List.length (requests_of w')
                = (List.length (requests_of w) + fuel)%nat).
  { induction fuel as [|fuel IH]; intros acc cursor page w.
    - exists w. split; [reflexivity | lia].
    - destruct (Hendless (requests_of w) cursor) as [items [next [Hpage Hnext]]].
      destruct (example_4_loop_step net client fuel acc items cursor next page w Hpage)
        as [w1 [Hw1 Hstep]].
      rewrite Hstep, Hnext. cbn [negb].
      destruct (IH (acc ++ items) next (page + 1) w1) as [w' [Hrun Hlen]].
      exists w'. split; [exact Hrun|].
      rewrite Hlen, Hw1, length_app. simpl. lia. }
  intros fuel acc cursor page w. split; [apply Hloop|].
  unfold example_4_list_all_servers, banner.
  repeat (rewrite bind_assoc || rewrite bind_print).
  match goal with
  | |- context [bind (example_4_loop net fuel client [] JNull 1) _ ?w0] =>
      destruct (Hloop fuel [] JNull 1 w0) as [w' [Hrun _]]
  end.
  unfold bind. rewrite Hrun. reflexivity.
Qed.

(** X9, on a registry that always names a next page. *)
Lemma pagination_never_ends_on_endless_catalog_witness :
  fst (example_4_list_all_servers endless_registry 7 Scenarios.local_client [])
  = Diverge.
Proof.
  apply (pagination_never_ends_on_endless_catalog endless_registry
           Scenarios.local_client
           (fun _ _ => ex_intro _ [] (ex_intro _ (JStr "more") (conj eq_refl eq_refl)))
           7 [] JNull 1 []).
Defined.

Lemma is_not_error_status (status : Z) :
  ~ 400 <= status < 600 -> (400 <=? status) && (status <? 600) = false.
Proof.
  intros H. apply andb_false_iff.
  destruct (Z.leb_spec 400 status); [right|now left].
  apply Z.ltb_ge. lia.
Qed.

(** Unfolds the plumbing of a run and computes what is decided. *)
Ltac run_step :=
  cbv beta iota delta [bind ret raise dict_get print emit when raise_for_status
                       response_json status_code json_body truthy negb].

(** ** Rendering a server *)

Lemma print_package_quiet (pkg : json) : quiet (print_package pkg).
Proof. unfold quiet, print_package. sends_steps. Qed.

Lemma print_server_info_quiet (server_data : json) (detailed : bool) :
  quiet (print_server_info server_data detailed).
Proof.
  unfold quiet, print_server_info.
  repeat first
    [ apply sends_only_for_each; intros ?; apply print_package_quiet
    | progress sends_steps ].
Qed.

(** X10: [print_server_info] sends nothing and always comes back.  Given
    anything but a JSON object it raises [AttributeError] before printing a
    line.  Given an object with neither a [server] nor a [_meta] entry it
    prints the title, name, version and description lines with [N/A] in
    place of each value and nothing else, detailed or not. *)
Theorem print_server_info_defaults (server_data : json) (detailed : bool) (w : World) :
  quiet (print_server_info server_data detailed)
  /\ match server_data with
     | JObj items =>
         assoc "server" items = None -> assoc "_meta" items = None ->
         print_server_info server_data detailed w
         = (Ok tt,
            w ++ [Print [Lit nl; Lit rule];
                  Print [Lit "📦 "; Val (JStr "N/A")];
                  Print [Lit rule];
                  Print [Lit "Name:        "; Val (JStr "N/A")];
                  Print [Lit "Version:     "; Val (JStr "N/A")];
                  Print [Lit "Description: "; Val (JStr "N/A")]])
     | _ => print_server_info server_data detailed w = (Raise AttributeError, w)
     end.
Proof.
  split; [apply print_server_info_quiet|].
  destruct server_data as [| | | | |items]; try reflexivity.
  intros Hserver Hmeta.
  unfold print_server_info, dict_get. rewrite Hserver, Hmeta.
  destruct detailed; cbn; rewrite <- !app_assoc; reflexivity.
Qed.

Lemma split_on_append (sep : ascii) (a b : string) :
  split_on sep (a +++ String sep b) = split_on sep a ++ split_on sep b.
Proof.
  induction a as [|c a IH]; simpl.
  - now rewrite Ascii.eqb_refl.
  - destruct (Ascii.eqb c sep); [now rewrite IH|].
    rewrite IH. destruct (split_on sep a) as [|hd rest] eqn:Ha; [|reflexivity].
    pose proof (split_on_length sep a) as Hlen. rewrite Ha in Hlen. discriminate.
Qed.

Lemma last_app_cons {A : Type} (l : list A) (x : A) (l' : list A) (d : A) :
  last (l ++ x :: l') d = last (x :: l') d.
Proof.
  induction l as [|y l IH]; [reflexivity|].
  simpl app. rewrite <- IH. simpl. destruct (l ++ x :: l') eqn:H; [|reflexivity].
  destruct l; discriminate.
Qed.

(** X11: the short name that example 5 puts into the client configuration
    is what follows the last [/] of the server name: a name without [/] is
    taken whole, and for [namespace/short] it is [short].  Every name that
    is no string ([None], a boolean, a number, a list or an object) raises
    [AttributeError]. *)
Theorem short_name_is_last_segment (namespace short : string) (w : World)
  (Hshort : count_char "/" short = O) :
  short_name (JStr (namespace +++ String "/" short)) w = (Ok short, w)
  /\ short_name (JStr short) w = (Ok short, w)
  /\ (forall name : json,
        match name with
        | JStr _ => True
        | JNull | JBool _ | JNum _ | JArr _ | JObj _ =>
            short_name name w = (Raise AttributeError, w)
        end).
Proof.
  unfold short_name, ret, raise.
  split; [|split].
  - rewrite split_on_append, (split_on_none "/" short Hshort).
    now rewrite last_app_cons.
  - now rewrite (split_on_none "/" short Hshort).
  - intros name. destruct name; auto.
Qed.

(** X11, at the name of the example server. *)
Lemma short_name_is_last_segment_witness :
  fst (short_name (JStr example_server) []) = Ok "mcp-math-server"%string.
Proof.
  destruct (short_name_is_last_segment "io.modelcontextprotocol.anonymous"
              "mcp-math-server" [] eq_refl) as [H _].
  change (JStr example_server)
    with (JStr ("io.modelcontextprotocol.anonymous" +++ String "/" "mcp-math-server")).
  now rewrite H.
Defined.

(** X12: example 5 on a server without packages and without a repository:
    it prints that no pre-packaged installation is available and a client
    configuration whose command is the placeholder [path-to-server], keyed by
    the short name of the server, after the single lookup request. *)
Theorem example_5_without_packages (net : Net) (client : MCPRegistryClient)
  (server_name name : string) (w : World) (status : Z)
  (body server : list (string * json))
  (Hget : net (requests_of w) (get_server_version_request client server_name "latest")
          = Responded (mkResponse status (Some (JObj body))))
  (Hok : ~ 400 <= status < 600)
  (Hserver : assoc "server" body = Some (JObj server))
  (Hpackages : assoc "packages" server = None)
  (Hrepository : assoc "repository" server = None)
  (Hname : assoc "name" server = Some (JStr name)) :
  exists pre title,
    requests_of pre = []
    /\ example_5_installation_info net client server_name w
       = (Ok tt,
          w ++ pre
            ++ [Sent (get_server_version_request client server_name "latest");
                Print [Lit nl; Lit "📖 Installation Guide for "; Val title];
                Print [Lit nl; Lit "Option 1: Direct Installation"];
                Print [Lit "  No pre-packaged installation available."];
                Print [Lit nl; Lit "Option 2: Use with MCP Client (e.g., Claude Desktop)"];
                Print [Lit "  Add to your MCP client config:"];
                Print [Lit nl; Lit "  {"; Lit nl;
                       Lit "    "; Lit dq; Lit "mcpServers"; Lit dq; Lit ": {"; Lit nl;
                       Lit "      "; Lit dq;
                       Lit (last (split_on "/" name) EmptyString); Lit dq;
                       Lit ": {"; Lit nl;
                       Lit "        "; Lit dq; Lit "command"; Lit dq; Lit ": "; Lit dq;
                       Val (JStr "path-to-server"); Lit dq; Lit nl;
                       Lit "      }"; Lit nl; Lit "    }"; Lit nl; Lit "  }"; Lit nl;
                       Lit "        "]]).
Proof.
  pose proof (is_not_error_status status Hok) as Hstatus.
  eexists [Print _; Print _; Print _], _. split; [reflexivity|].
  unfold example_5_installation_info, banner, try_except, get_server,
    get_server_version.
  repeat (rewrite bind_assoc || rewrite bind_print).
  unfold bind at 1, send. rewrite !requests_of_print, Hget.
  repeat first
    [ rewrite Hstatus | rewrite Hserver | rewrite Hpackages | rewrite Hrepository
    | rewrite Hname | progress run_step ].
  unfold short_name. run_step. rewrite <- !app_assoc. reflexivity.
Qed.

(** X12, on a registry whose server has a name and nothing else. *)
Lemma example_5_without_packages_witness :
  fst (example_5_installation_info bare_server_registry Scenarios.local_client
         "ns/srv" []) = Ok tt.
Proof.
  destruct (example_5_without_packages bare_server_registry Scenarios.local_client
              "ns/srv" "ns/srv" [] 200
              [("server"%string, JObj [("name"%string, JStr "ns/srv")])]
              [("name"%string, JStr "ns/srv")]
              eq_refl ltac:(lia) eq_refl eq_refl eq_refl eq_refl)
    as [pre [title [_ H]]].
  now rewrite H.
Defined.

(** ** The configuration of the publish script *)

Lemma lower_ascii_t (a : ascii) :
  Ascii.eqb (lower_ascii a) "t" = Ascii.eqb a "t" || Ascii.eqb a "T".
Proof. destruct a as [[] [] [] [] [] [] [] []]; reflexivity. Qed.

Lemma lower_ascii_r (a : ascii) :
  Ascii.eqb (lower_ascii a) "r" = Ascii.eqb a "r" || Ascii.eqb a "R".
Proof. destruct a as [[] [] [] [] [] [] [] []]; reflexivity. Qed.

Lemma lower_ascii_u (a : ascii) :
  Ascii.eqb (lower_ascii a) "u" = Ascii.eqb a "u" || Ascii.eqb a "U".
Proof. destruct a as [[] [] [] [] [] [] [] []]; reflexivity. Qed.

Lemma lower_ascii_e (a : ascii) :
  Ascii.eqb (lower_ascii a) "e" = Ascii.eqb a "e" || Ascii.eqb a "E".
Proof. destruct a as [[] [] [] [] [] [] [] []]; reflexivity. Qed.

Lemma lower_is_true (v : string) :
  String.eqb (lower v) "true" = spells_true v.
Proof.
  destruct v as [|a [|b [|c [|d [|x v]]]]]; try reflexivity.
  - cbn [lower String.eqb]. now destruct (Ascii.eqb (lower_ascii a) "t").
  - cbn [lower String.eqb].
    destruct (Ascii.eqb (lower_ascii a) "t"), (Ascii.eqb (lower_ascii b) "r");
      reflexivity.
  - cbn [lower String.eqb].
    destruct (Ascii.eqb (lower_ascii a) "t"), (Ascii.eqb (lower_ascii b) "r"),
      (Ascii.eqb (lower_ascii c) "u"); reflexivity.
  - cbn [lower String.eqb spells_true].
    rewrite lower_ascii_t, lower_ascii_r, lower_ascii_u, lower_ascii_e.
    destruct (Ascii.eqb a "t"), (Ascii.eqb a "T"), (Ascii.eqb b "r"),
      (Ascii.eqb b "R"), (Ascii.eqb c "u"), (Ascii.eqb c "U"), (Ascii.eqb d "e"),
      (Ascii.eqb d "E"); reflexivity.
  - cbn [lower String.eqb].
    destruct (Ascii.eqb (lower_ascii a) "t"), (Ascii.eqb (lower_ascii b) "r"),
      (Ascii.eqb (lower_ascii c) "u"), (Ascii.eqb (lower_ascii d) "e"); reflexivity.
Qed.

(** X13: the two flags of the publish script are read without regard to
    case and with no other leniency.  Update mode is on exactly when
    [MCP_UPDATE_MODE] is one of the sixteen spellings of [true]; it is off
    when the variable is unset, empty, or anything else ([1], [yes], [true]
    with a space).  Auto-auth is on when [MCP_AUTO_AUTH] is unset or one of
    those spellings, and off for every other value. *)
Theorem flags_are_true_in_any_case_only (env : Env) :
  update_mode (resolve_config env)
    = match environ env "MCP_UPDATE_MODE" with
      | Some v => spells_true v
      | None => false
      end
  /\ auto_auth (resolve_config env)
    = match environ env "MCP_AUTO_AUTH" with
      | Some v => spells_true v
      | None => true
      end.
Proof.
  unfold resolve_config, getenv; cbn [update_mode auto_auth].
  destruct (environ env "MCP_UPDATE_MODE"), (environ env "MCP_AUTO_AUTH");
    rewrite ?lower_is_true; split; reflexivity.
Qed.

(** X14: an empty [MCP_SERVER_JSON] counts as unset, and so does an empty
    [MCP_AUTH_TOKEN]: the descriptor path is [Path] of the variable when it
    is set and not empty and the default otherwise; the token taken from the
    environment is used (whether it counts as a token) exactly when it is
    set and not empty; the registry URL is the variable when set, even
    empty, and [http://localhost:8080] otherwise. *)
Theorem empty_settings_count_as_unset (env : Env) :
  server_json_path (resolve_config env)
    = match environ env "MCP_SERVER_JSON" with
      | Some EmptyString | None => default_server_json env
      | Some path => path_text env path
      end
  /\ truthy (env_auth_token (resolve_config env))
    = match environ env "MCP_AUTH_TOKEN" with
      | Some EmptyString | None => false
      | Some _ => true
      end
  /\ Publish.registry_url (resolve_config env)
    = match environ env "MCP_REGISTRY_URL" with
      | Some u => u
      | None => "http://localhost:8080"%string
      end.
Proof.
  unfold resolve_config, getenv;
    cbn [server_json_path env_auth_token Publish.registry_url].
  destruct (environ env "MCP_SERVER_JSON") as [[|c p]|],
           (environ env "MCP_AUTH_TOKEN") as [[|d t]|],
           (environ env "MCP_REGISTRY_URL"); repeat split.
Qed.

(** ** Obtaining a token *)

Lemma get_auth_token_none_sends (env : Env) (base : string) :
  sends_exactly [auth_request base] (get_auth_token_none env base).
Proof.
  unfold get_auth_token_none.
  apply sends_exactly_send_then_quiet. intros response.
  unfold quiet. sends_steps.
Qed.

Lemma sends_exactly_then_quiet {A B : Type} (l : list Request) (c : M A)
  (k : A -> M B) :
  sends_exactly l c -> (forall a, quiet (k a)) -> sends_exactly l (bind c k).
Proof.
  intros Hc Hk w. unfold bind.
  destruct (Hc w) as [r [evs [-> [Hevs Hr]]]].
  destruct r as [a|e|].
  - destruct (quiet_sends_nothing _ (w ++ evs) (Hk a)) as [r' [evs' [-> [Hevs' Hr']]]].
    exists r', (evs ++ evs').
    rewrite app_assoc, requests_of_app, Hevs, Hevs', app_nil_r. auto.
  - exists (Raise e), evs. repeat split; auto. discriminate.
  - congruence.
Qed.

(** X15: the token step asks the registry for a token exactly when the
    environment gave none (or an empty one) and auto-auth is on: it then
    sends the one POST to [/v0.1/auth/none]; otherwise it sends nothing,
    prints nothing and hands on the token of the environment as it is,
    [None] included. *)
Theorem token_is_requested_only_when_needed (env : Env) (c : Config) (w : World) :
  if negb (truthy (env_auth_token c)) && auto_auth c
  then exists r evs,
         acquire_token env c w = (r, w ++ evs)
         /\ requests_of evs = [auth_request (Publish.registry_url c)]
         /\ r <> Diverge
  else acquire_token env c w = (Ok (env_auth_token c), w).
Proof.
  unfold acquire_token.
  destruct (negb (truthy (env_auth_token c)) && auto_auth c); [|reflexivity].
  revert w. change (sends_exactly [auth_request (Publish.registry_url c)]
    (print [Lit "Getting authentication token from /auth/none..."] ;;
     auth_token <- get_auth_token_none env (Publish.registry_url c) ;;
     sliceable auth_token ;;
     print [Lit "[OK] Using auto-generated token: "; Prefix 20 auth_token; Lit "..."] ;;
     print [] ;;
     ret auth_token)%run).
  apply sends_exactly_after_print.
  apply sends_exactly_then_quiet; [apply get_auth_token_none_sends|].
  intros auth_token. unfold quiet. sends_steps.
Qed.

(** X15, with and without a token in the environment. *)
Lemma token_is_requested_only_when_needed_witness :
  acquire_token (env_with [("MCP_AUTH_TOKEN", "secret")]%string 201)
                (resolve_config (env_with [("MCP_AUTH_TOKEN", "secret")]%string 201)) []
  = (Ok (JStr "secret"), []).
Proof.
  exact (token_is_requested_only_when_needed
           (env_with [("MCP_AUTH_TOKEN", "secret")]%string 201)
           (resolve_config (env_with [("MCP_AUTH_TOKEN", "secret")]%string 201)) []).
Defined.

(** X16: when [/v0.1/auth/none] answers without an error status and with a
    JSON object, [get_auth_token_none] returns the [registry_token] entry of
    that object, whatever its type, and prints the [expires_at] entry, or
    [unknown] when there is none; an object without [registry_token] raises
    [KeyError] and nothing is printed. *)
Theorem auth_answer_needs_registry_token (env : Env) (base : string) (w : World)
  (status : Z) (data : list (string * json))
  (Hnet : net env (requests_of w) (auth_request base)
          = Responded (mkResponse status (Some (JObj data))))
  (Hok : ~ 400 <= status < 600) :
  get_auth_token_none env base w
  = match assoc "registry_token" data with
    | Some token =>
        (Ok token,
         w ++ [Sent (auth_request base);
               Print [Lit "[OK] Got auth token from /auth/none (expires: ";
                      Val (match assoc "expires_at" data with
                           | Some x => x
                           | None => JStr "unknown"
                           end);
                      Lit ")"]])
    | None => (Raise (KeyError "registry_token"), w ++ [Sent (auth_request base)])
    end.
Proof.
  pose proof (is_not_error_status status Hok) as Hstatus.
  unfold get_auth_token_none.
  unfold bind at 1, send. rewrite Hnet.
  unfold subscript. run_step. rewrite Hstatus.
  destruct (assoc "registry_token" data); run_step;
    rewrite <- ?app_assoc; reflexivity.
Qed.

(** X16, on the mock registry. *)
Lemma auth_answer_needs_registry_token_witness :
  fst (get_auth_token_none (Scenarios.mock_env false true 201)
         "http://localhost:8080" []) = Ok (JStr "token").
Proof.
  rewrite (auth_answer_needs_registry_token (Scenarios.mock_env false true 201)
             "http://localhost:8080" [] 200 [("registry_token"%string, JStr "token")]
             eq_refl ltac:(lia)).
  reflexivity.
Defined.

(** ** What reaches the submission step *)

Lemma bind_Ok_inv {A B : Type} (c : M A) (k : A -> M B) (w w' : World) (b : B) :
  bind c k w = (Ok b, w') ->
  exists a w1, c w = (Ok a, w1) /\ k a w1 = (Ok b, w').
Proof.
  unfold bind. destruct (c w) as [[a|e|] w1]; try discriminate.
  intros H. now exists a, w1.
Qed.

Lemma send_Ok_inv (net : Net) (req : Request) (w w' : World) (response : Response) :
  send net req w = (Ok response, w') ->
  net (requests_of w) req = Responded response.
Proof.
  unfold send. destruct (net (requests_of w) req) as [r|e]; [|discriminate].
  intros H. now injection H as <- _.
Qed.

Lemma validate_server_json_Ok_inv (env : Env) (path : string) (w w' : World)
  (d : json) :
  validate_server_json env path w = (Ok d, w') ->
  load_json env path = inl d
  /\ exists status schema,
       net env (requests_of w) schema_request
         = Responded (mkResponse status (Some schema))
       /\ validate env d schema = None.
Proof.
  unfold validate_server_json. rewrite bind_print. intros H.
  apply bind_Ok_inv in H as [d' [w1 [Hload H]]].
  destruct (load_json env path) as [v|e]; [|discriminate].
  injection Hload as <- <-.
  apply bind_Ok_inv in H as [response [w2 [Hsend H]]].
  apply send_Ok_inv in Hsend. rewrite requests_of_print in Hsend.
  apply bind_Ok_inv in H as [[] [w3 [_ H]]].
  apply bind_Ok_inv in H as [schema [w4 [Hjson H]]].
  apply bind_Ok_inv in H as [[] [w5 [Hvalid H]]].
  rewrite bind_print in H. injection H as <- _.
  split; [reflexivity|].
  destruct response as [status [body|]]; [|discriminate].
  injection Hjson as <- _.
  exists status, body. split; [exact Hsend|].
  destruct (validate env v body); [discriminate | reflexivity].
Qed.

Lemma show_server_information_Ok_inv (d : json) (w w' : World) (nv : json * json) :
  show_server_information d w = (Ok nv, w') ->
  exists items,
    d = JObj items
    /\ fst nv = match assoc "name" items with Some x => x | None => JStr "unknown" end
    /\ snd nv = match assoc "version" items with Some x => x | None => JStr "unknown" end.
Proof.
  unfold show_server_information. rewrite bind_print. intros H.
  destruct d as [| | | | |items]; try discriminate.
  exists items. split; [reflexivity|].
  apply bind_Ok_inv in H as [name [w1 [Hname H]]].
  apply bind_Ok_inv in H as [version [w2 [Hversion H]]].
  injection Hname as <- <-. injection Hversion as <- <-.
  rewrite bind_print in H.
  repeat (apply bind_Ok_inv in H as [? [? [_ H]]]).
  injection H as <- _. split; reflexivity.
Qed.

(** X17: what [main] holds when it reaches the submission step.  The
    descriptor is the one loaded from the descriptor file, unchanged, and the
    schema engine has accepted it against the schema that was fetched: the
    JSON body of the answer to the schema GET of this run; it is a JSON
    object; the name and the version used from then on (in the update URL
    and in the verification query) are its [name] and [version] entries,
    whatever their type, and the string [unknown] for an entry it lacks. *)
Theorem submission_uses_the_loaded_descriptor (env : Env) (c : Config)
  (w w1 : World) (r : Ready)
  (Hprepare : prepare env c w = (Ok r, w1)) :
  load_json env (server_json_path c) = inl (server_data r)
  /\ (exists status schema,
        net env (requests_of w) schema_request
          = Responded (mkResponse status (Some schema))
        /\ validate env (server_data r) schema = None)
  /\ exists items,
       server_data r = JObj items
       /\ server_name r
          = match assoc "name" items with Some x => x | None => JStr "unknown" end
       /\ server_version r
          = match assoc "version" items with Some x => x | None => JStr "unknown" end.
Proof.
  unfold prepare in Hprepare.
  apply bind_Ok_inv in Hprepare as [[] [wa [Hconfig H]]].
  assert (Hwa : requests_of wa = requests_of w).
  { unfold print_configuration in Hconfig.
    repeat rewrite bind_print in Hconfig.
    unfold print, emit in Hconfig. injection Hconfig as <-. now trace_simpl. }
  apply bind_Ok_inv in H as [d [wb [Hvalidate H]]].
  rewrite bind_print in H.
  apply bind_Ok_inv in H as [nv [wc [Hshow H]]].
  apply bind_Ok_inv in H as [[] [wd [_ H]]].
  apply bind_Ok_inv in H as [token [we [_ H]]].
  injection H as <- _. cbn [server_data server_name server_version].
  destruct (validate_server_json_Ok_inv _ _ _ _ _ Hvalidate) as [Hload Hschema].
  rewrite Hwa in Hschema.
  split; [exact Hload|]. split; [exact Hschema|].
  exact (show_server_information_Ok_inv _ _ _ _ Hshow).
Qed.

(** X17, on the mock registry. *)
Lemma submission_uses_the_loaded_descriptor_witness :
  let env := Scenarios.mock_env false true 201 in
  exists r w1,
    prepare env (resolve_config env) [] = (Ok r, w1)
    /\ server_data r = Scenarios.descriptor
    /\ server_name r = JStr "ns/srv"
    /\ validate env Scenarios.descriptor (JObj []) = None.
Proof.
  cbv zeta.
  exists (mkReady Scenarios.descriptor (JStr "ns/srv") (JStr "1.0.0") (JStr "token")).
  eexists. split; [vm_compute; reflexivity|].
  split; [reflexivity|].
  destruct (submission_uses_the_loaded_descriptor
              (Scenarios.mock_env false true 201)
              (resolve_config (Scenarios.mock_env false true 201)) [] _
              (mkReady Scenarios.descriptor (JStr "ns/srv") (JStr "1.0.0") (JStr "token"))
              eq_refl) as [_ [[status [schema [Hnet Hvalid]]] [items [Hd [Hn _]]]]].
  split.
  - cbn [server_data] in Hd. injection Hd as <-. exact Hn.
  - injection Hnet as _ <-. exact Hvalid.
Defined.

(** ** The exit status of the publish script *)

Lemma returns_only_bind {A B : Type} (Q : B -> Prop) (c : M A) (k : A -> M B) :
  (forall a, returns_only Q (k a)) -> returns_only Q (bind c k).
Proof.
  intros Hk w b w' H. apply bind_Ok_inv in H as [a [w1 [_ H]]].
  exact (Hk a w1 b w' H).
Qed.

Lemma returns_only_ret {A : Type} (Q : A -> Prop) (a : A) :
  Q a -> returns_only Q (ret a).
Proof. intros HQ w b w' H. injection H as <- _. exact HQ. Qed.

Lemma main_returns_zero (env : Env) :
  returns_only (fun code => code = 0) (Publish.main env).
Proof.
  unfold Publish.main, display_and_verify.
  repeat (apply returns_only_bind; intros ?).
  now apply returns_only_ret.
Qed.

Lemma sends_exactly_sends_only {A : Type} (l : list Request) (c : M A) :
  sends_exactly l c -> sends_only (fun _ => True) c.
Proof.
  intros Hc w. destruct (Hc w) as [r [evs [Hrun [_ Hr]]]].
  exists r, evs. repeat split; auto.
  apply Forall_forall. auto.
Qed.

Lemma main_comes_back (env : Env) : sends_only (fun _ => True) (Publish.main env).
Proof.
  unfold Publish.main.
  apply sends_only_bind;
    [apply (sends_only_weaken _ _ _ (fun _ _ => I) (prepare_sends env _))|intros r].
  apply sends_only_bind;
    [apply (sends_exactly_sends_only _ _ (submit_sends_one env _ r))|intros result].
  apply (sends_only_weaken _ _ _ (fun _ _ => I) (display_and_verify_sends env _ r result)).
Qed.

(** X18: the publish script always exits, with status 0 or 1: 0 exactly
    when [main] returns (it only ever returns 0), and 1 exactly when an
    exception leaves [main], whichever it is. *)
Theorem script_exits_with_0_or_1 (env : Env) (w : World) :
  (fst (script env w) = Some 0 \/ fst (script env w) = Some 1)
  /\ (fst (script env w) = Some 0 <-> exists w', Publish.main env w = (Ok 0, w'))
  /\ (fst (script env w) = Some 1 <-> exists e w', Publish.main env w = (Raise e, w')).
Proof.
  unfold script.
  destruct (main_comes_back env w) as [r [evs [Hrun [_ Hr]]]].
  pose proof (main_returns_zero env w) as Hzero.
  rewrite Hrun in *.
  destruct r as [code|e|]; [|destruct e|congruence]; cbn [fst].
  1: rewrite (Hzero code _ eq_refl).
  1: { split; [now left|]. split; split.
       - eauto.
       - reflexivity.
       - discriminate.
       - intros [e [w' H]]. discriminate. }
  all: split; [now right|]; split; split;
    [ discriminate | intros [w' H]; discriminate | eauto | reflexivity ].
Qed.

(** X19: a descriptor file that cannot be read or parsed ends the run
    before any request is sent: [main] raises the exception of the load, the
    script exits with status 1, and the schema is not even fetched. *)
Theorem unreadable_descriptor_sends_nothing (env : Env) (w : World) (e : exn)
  (Hload : load_json env (server_json_path (resolve_config env)) = inr e) :
  fst (Publish.main env w) = Raise e
  /\ fst (script env w) = Some 1
  /\ requests_of (snd (script env w)) = requests_of w.
Proof.
  assert (Hmain : exists evs, Publish.main env w = (Raise e, w ++ evs)
                              /\ requests_of evs = []).
  { unfold Publish.main, prepare, print_configuration, validate_server_json.
    repeat (rewrite bind_assoc || rewrite bind_print).
    rewrite Hload. unfold bind, raise. rewrite <- !app_assoc.
    eexists. split; reflexivity. }
  destruct Hmain as [evs [Hmain Hevs]].
  unfold script. rewrite Hmain.
  split; [reflexivity|].
  destruct e; cbn [fst snd]; (split; [reflexivity|]);
    rewrite !requests_of_app, Hevs; simpl; rewrite !app_nil_r; reflexivity.
Qed.

(** X19, on a run whose descriptor file is missing. *)
Lemma unreadable_descriptor_sends_nothing_witness :
  fst (script env_without_file []) = Some 1
  /\ requests_of (snd (script env_without_file [])) = [].
Proof.
  destruct (unreadable_descriptor_sends_nothing env_without_file [] OSError eq_refl)
    as [_ [Hexit Hreqs]].
  split; [exact Hexit | exact Hreqs].
Defined.

Lemma validate_server_json_schema_error (env : Env) (path : string) (w : World)
  (d : json) (status : Z) (body : option json) :
  load_json env path = inl d ->
  net env (requests_of w) schema_request = Responded (mkResponse status body) ->
  400 <= status < 600 ->
  validate_server_json env path w
  = (Raise (HTTPError status),
     w ++ [Print [Lit "Validating server.json..."]; Sent schema_request]).
Proof.
  intros Hload Hschema Hstatus.
  unfold validate_server_json. rewrite bind_print, Hload.
  unfold bind, ret, send. rewrite requests_of_print, Hschema.
  run_step. rewrite (is_client_or_server_error status Hstatus).
  rewrite <- app_assoc. reflexivity.
Qed.

(** X20: when the schema host answers with an error status, the descriptor
    is not validated at all: [validate_server_json] raises the [HTTPError]
    after that one GET whatever the schema engine would say, and the script
    exits with status 1. *)
Theorem schema_fetch_failure_ends_the_run (env : Env) (w : World) (d : json)
  (status : Z) (body : option json)
  (Hload : load_json env (server_json_path (resolve_config env)) = inl d)
  (Hschema : net env (requests_of w) schema_request
             = Responded (mkResponse status body))
  (Hstatus : 400 <= status < 600) :
  fst (Publish.main env w) = Raise (HTTPError status)
  /\ fst (script env w) = Some 1
  /\ requests_of (snd (script env w)) = requests_of w ++ [schema_request].
Proof.
  assert (Hmain : exists w', Publish.main env w = (Raise (HTTPError status), w')
                             /\ requests_of w' = requests_of w ++ [schema_request]).
  { unfold Publish.main, prepare, print_configuration.
    repeat (rewrite bind_assoc || rewrite bind_print).
    match goal with
    | |- context [bind (validate_server_json env _) _ ?w0] => set (start := w0)
    end.
    assert (Hstart : requests_of start = requests_of w)
      by (unfold start; now trace_simpl).
    rewrite <- Hstart in Hschema.
    rewrite (bind_raise _ _ _ _ _
               (validate_server_json_schema_error env _ start d status body
                  Hload Hschema Hstatus)).
    eexists. split; [reflexivity|]. rewrite requests_of_app, Hstart. reflexivity. }
  destruct Hmain as [w' [Hmain Hreqs]].
  unfold script. rewrite Hmain. cbn [fst snd].
  repeat split.
  rewrite requests_of_app, Hreqs. simpl. now rewrite app_nil_r.
Qed.

(** X20, on a schema host that answers 503 to everything. *)
Lemma schema_fetch_failure_ends_the_run_witness :
  fst (script (env_plain_text 503) []) = Some 1
  /\ requests_of (snd (script (env_plain_text 503) [])) = [schema_request].
Proof.
  destruct (schema_fetch_failure_ends_the_run (env_plain_text 503) []
              Scenarios.descriptor 503 None eq_refl eq_refl ltac:(lia))
    as [_ [Hexit Hreqs]].
  split; [exact Hexit | exact Hreqs].
Defined.

(** ** After the submission *)

Lemma bind_emit {B : Type} (ev : Event) (k : unit -> M B) (w : World) :
  bind (emit ev) k w = k tt (w ++ [ev]).
Proof. reflexivity. Qed.

(** X21: nothing is undone when the verification fails.  If the submission
    succeeded and the search by name that follows it is answered with an
    error status, [main] raises that [HTTPError] and the script exits with
    status 1, although the submission request has been sent and accepted. *)
Theorem verification_failure_exits_1_after_submitting (env : Env) (w w1 w2 : World)
  (r : Ready) (result : json) (status : Z) (body : option json)
  (Hprepare : prepare env (resolve_config env) w = (Ok r, w1))
  (Hsubmit : submit env (resolve_config env) r w1 = (Ok result, w2))
  (Hverify : net env (requests_of w2)
                 (search_request (Publish.registry_url (resolve_config env))
                                 (server_name r))
             = Responded (mkResponse status body))
  (Hstatus : 400 <= status < 600) :
  fst (Publish.main env w) = Raise (HTTPError status)
  /\ fst (script env w) = Some 1
  /\ In (submission_request env (resolve_config env) r)
        (requests_of (snd (script env w))).
Proof.
  pose proof (is_client_or_server_error status Hstatus) as Herr.
  assert (Hmain : exists evs, Publish.main env w = (Raise (HTTPError status), w2 ++ evs)).
  { unfold Publish.main.
    rewrite (bind_ok _ _ _ _ _ Hprepare), (bind_ok _ _ _ _ _ Hsubmit).
    unfold display_and_verify, get_server_info.
    repeat (rewrite bind_assoc || rewrite bind_print || rewrite bind_emit).
    unfold bind at 1, send.
    rewrite !requests_of_app. cbn [requests_of]. rewrite !app_nil_r, Hverify.
    run_step. rewrite Herr. rewrite <- !app_assoc.
    eexists. reflexivity. }
  destruct Hmain as [evs Hmain].
  destruct (submit_sends_one env (resolve_config env) r w1)
    as [res [sent [Hrun [Hsent _]]]].
  rewrite Hsubmit in Hrun. injection Hrun as _ ->.
  unfold script. rewrite Hmain. cbn [fst snd].
  repeat split.
  rewrite !requests_of_app, Hsent.
  apply in_or_app. left. apply in_or_app. left. apply in_or_app. right. now left.
Qed.

(** X21, on a registry that accepts the descriptor and then answers 500 to
    the search. *)
Lemma verification_failure_exits_1_after_submitting_witness :
  fst (script env_failing_verification []) = Some 1
  /\ In (publish_request "http://localhost:8080" Scenarios.descriptor (JStr "token"))
        (requests_of (snd (script env_failing_verification []))).
Proof.
  pose (env := env_failing_verification).
  pose (r := mkReady Scenarios.descriptor (JStr "ns/srv") (JStr "1.0.0") (JStr "token")).
  pose (w1 := snd (prepare env (resolve_config env) [])).
  pose (w2 := snd (submit env (resolve_config env) r w1)).
  destruct (verification_failure_exits_1_after_submitting env [] w1 w2 r (JObj [])
              500 None eq_refl eq_refl eq_refl ltac:(lia)) as [_ [Hexit Hin]].
  split; [exact Hexit | exact Hin].
Defined.

(** ** Answers to the submission that are not JSON *)



(** ** The accepted and the error statuses of the submission *)

(** X23, on the mock registry answering 409. *)
Lemma publish_server_error_status_witness :
  fst (publish_server (Scenarios.mock_env false true 409) "http://localhost:8080"
         Scenarios.descriptor (JStr "token") []) = Raise (HTTPError 409).
Proof.
  rewrite (publish_server_error_status (Scenarios.mock_env false true 409)
             "http://localhost:8080" Scenarios.descriptor (JStr "token") [] 409
             (JObj []) eq_refl ltac:(lia)).
  reflexivity.
Defined.

(** X24, on the mock registry answering 201. *)
Lemma publish_server_success_status_witness :
  fst (publish_server (Scenarios.mock_env false true 201) "http://localhost:8080"
         Scenarios.descriptor (JStr "token") []) = Ok (JObj []).
Proof.
  rewrite (publish_server_success_status (Scenarios.mock_env false true 201)
             "http://localhost:8080" Scenarios.descriptor (JStr "token") [] 201
             (JObj []) eq_refl (or_intror eq_refl)).
  reflexivity.
Defined.

(** X25, on the mock registry answering 404. *)
Lemma update_server_version_error_status_witness :
  fst (update_server_version (Scenarios.mock_env true true 404)
         "http://localhost:8080" (JStr "ns/srv") (JStr "1.0.0")
         Scenarios.descriptor (JStr "token") []) = Raise (HTTPError 404).
Proof.
  rewrite (update_server_version_error_status (Scenarios.mock_env true true 404)
             "http://localhost:8080" (JStr "ns/srv") (JStr "1.0.0")
             Scenarios.descriptor (JStr "token") [] 404 (JObj []) eq_refl ltac:(lia)).
  reflexivity.
Defined.

(** ** Listing answers without entries *)


